(** * A tenant-aware HTTP client and its tenant loader

    Shallow embedding of two TypeScript modules of the application:

    - [core/tenant/tenant.config.ts]: the table [tenantConfigs] and the
      static class [TenantLoader];
    - [core/api/api-client.ts]: the class [ApiClient], its two axios
      interceptors, the token refresh and the five verb methods.

    JavaScript objects that the code indexes by a computed key are finite
    maps ([gmap string _]) of their own properties, read through
    [Js.index], which also finds what every object literal inherits from
    [Object.prototype]; interfaces that are only read field by field are
    records.  Promises are run to completion one after the other: an
    [await] is a monadic bind, a rejection is a thrown value.  The network
    is a pair of oracles that answer from the history of what was sent. *)

From stdpp Require Import gmap strings list.
From Stdlib Require Import ZArith.

Local Open Scope string_scope.

(** ** JavaScript values and the operators the code relies on *)

Module Js.

(** The names that every object literal inherits from
    [Object.prototype]: seven methods and [constructor], and the
    accessor [__proto__] with its four legacy companions. *)
Definition objectPrototype : list string :=
  [ "constructor"; "hasOwnProperty"; "isPrototypeOf"; "propertyIsEnumerable";
    "toLocaleString"; "toString"; "valueOf"; "__proto__";
    "__defineGetter__"; "__defineSetter__"; "__lookupGetter__"; "__lookupSetter__" ].

Definition inherits (k : string) : bool := bool_decide (k ∈ objectPrototype).

(** [o[k]] for an object literal [o] with the own properties [own]: an
    own property wins; otherwise the prototype chain is searched, and
    [inherited k] is the member of [Object.prototype] found there. *)
Definition index {A} (inherited : string -> A) (own : gmap string A) (k : string)
    : option A :=
  match own !! k with
  | Some v => Some v
  | None => if inherits k then Some (inherited k) else None
  end.

(** What reading a property of a flag or permission object can yield:
    the values the table stores, or the member of [Object.prototype] of
    that name (a function, or the prototype itself for [__proto__]). *)
Inductive value :=
| VUndefined
| VBool (b : bool)
| VNum (n : Z)
| VStrArray (l : list string)
| VInherited (k : string).

(** [ToBoolean]: an array is truthy even when empty, a number unless 0,
    a function or an object always. *)
Definition truthy (v : value) : bool :=
  match v with
  | VUndefined => false
  | VBool b => b
  | VNum n => negb (n =? 0)%Z
  | VStrArray _ => true
  | VInherited _ => true
  end.

(** [obj[key] ?? d]: a missing property reads as [undefined]. *)
Definition nullish (o : option value) (d : value) : value :=
  match o with
  | None | Some VUndefined => d
  | Some v => v
  end.

(** Truthiness of a [string | null]: [null] and [""] are falsy.  The
    result is the string itself when it is truthy. *)
Definition held (o : option string) : option string :=
  match o with
  | Some s => if decide (s = "") then None else Some s
  | None => None
  end.

(** [a || d] where [a : string | undefined]. *)
Definition str_or (o : option string) (d : string) : string :=
  default d (held o).

(** [a || d] where [a] is an array or [undefined]; [[]] is truthy. *)
Definition arr_or (o : option (list string)) (d : list string) : list string :=
  default d o.

End Js.

(** [s.toLowerCase()], on the letters A to Z; the other bytes of the
    string are left as they are. *)
Definition lowerChar (c : Ascii.ascii) : Ascii.ascii :=
  let n := Ascii.nat_of_ascii c in
  if (65 <=? n)%nat && (n <=? 90)%nat then Ascii.ascii_of_nat (n + 32) else c.

Fixpoint toLowerCase (s : string) : string :=
  match s with
  | EmptyString => EmptyString
  | String c s => String (lowerChar c) (toLowerCase s)
  end.

(** ** [process.env] *)

Record ProcessEnv := {
  EXPO_PUBLIC_API_URL_DEV : option string;
  EXPO_PUBLIC_TENANT_ID : option string;
}.

(** ** tenant.config.ts *)

Record TenantApiConfig := {
  baseUrl : string;
  timeout : Z;
  retryAttempts : Z;
  enableCaching : bool;
  cacheTimeout : Z;
}.

(** [featureFlags] and [permissions] are read as [obj[key]], so they are
    maps from property name to value: the own properties of the two
    object literals. *)
Record TenantConfig := {
  id : string;
  name : string;
  displayName : string;
  api : TenantApiConfig;
  featureFlags : gmap string Js.value;
  permissions : gmap string Js.value;
}.

(** [type TenantId] *)
Definition tenant_ids : list string :=
  [ "default"; "tenant-1"; "tenant-2"; "tenant-3" ].

(** [keyof TenantFeatureFlags] and [keyof TenantPermissions]. *)
Definition feature_keys : list string :=
  [ "enablePushNotifications"; "enableBiometricAuth"; "enableDarkMode";
    "enableOfflineMode"; "enableAnalytics"; "enableChatSupport";
    "enablePaymentGateway"; "maxFileUploadSize"; "allowedFileTypes" ].

Definition permission_keys : list string :=
  [ "canCreateContent"; "canDeleteContent"; "canShareContent";
    "canExportData"; "canInviteUsers"; "maxUsers" ].

Definition mkFlags (push bio dark offline analytics chat pay : bool)
    (maxSize : Z) (types : list string) : gmap string Js.value :=
  list_to_map
    [ ("enablePushNotifications", Js.VBool push);
      ("enableBiometricAuth", Js.VBool bio);
      ("enableDarkMode", Js.VBool dark);
      ("enableOfflineMode", Js.VBool offline);
      ("enableAnalytics", Js.VBool analytics);
      ("enableChatSupport", Js.VBool chat);
      ("enablePaymentGateway", Js.VBool pay);
      ("maxFileUploadSize", Js.VNum maxSize);
      ("allowedFileTypes", Js.VStrArray types) ].

Definition mkPermissions (create delete share export invite : bool)
    (maxUsers : Z) : gmap string Js.value :=
  list_to_map
    [ ("canCreateContent", Js.VBool create);
      ("canDeleteContent", Js.VBool delete);
      ("canShareContent", Js.VBool share);
      ("canExportData", Js.VBool export);
      ("canInviteUsers", Js.VBool invite);
      ("maxUsers", Js.VNum maxUsers) ].

Definition tenant_default (env : ProcessEnv) : TenantConfig := {|
  id := "default";
  name := "default";
  displayName := "Default Tenant";
  api := {| baseUrl := Js.str_or (EXPO_PUBLIC_API_URL_DEV env) "https://api-dev.example.com";
            timeout := 30000; retryAttempts := 3;
            enableCaching := true; cacheTimeout := 300000 |};
  featureFlags :=
    mkFlags true true true true true true true 10485760
      ["image/jpeg"; "image/png"; "application/pdf"];
  permissions := mkPermissions true true true true true 100;
|}.

Definition tenant_1 : TenantConfig := {|
  id := "tenant-1";
  name := "tenant-1";
  displayName := "Tenant One";
  api := {| baseUrl := "https://api-tenant1.example.com";
            timeout := 30000; retryAttempts := 3;
            enableCaching := true; cacheTimeout := 300000 |};
  featureFlags :=
    mkFlags true false true false true false true 5242880
      ["image/jpeg"; "image/png"];
  permissions := mkPermissions true false true false false 50;
|}.

Definition tenant_2 : TenantConfig := {|
  id := "tenant-2";
  name := "tenant-2";
  displayName := "Tenant Two";
  api := {| baseUrl := "https://api-tenant2.example.com";
            timeout := 30000; retryAttempts := 5;
            enableCaching := true; cacheTimeout := 600000 |};
  featureFlags :=
    mkFlags true true true true true true false 20971520
      ["image/jpeg"; "image/png"; "application/pdf"; "video/mp4"];
  permissions := mkPermissions true true true true true 500;
|}.

Definition tenant_3 : TenantConfig := {|
  id := "tenant-3";
  name := "tenant-3";
  displayName := "Tenant Three";
  api := {| baseUrl := "https://api-tenant3.example.com";
            timeout := 20000; retryAttempts := 2;
            enableCaching := false; cacheTimeout := 0 |};
  featureFlags :=
    mkFlags false false false false false false false 1048576 ["image/jpeg"];
  permissions := mkPermissions false false false false false 10;
|}.

(** The own properties of the table, keyed by tenant id.  The code
    reads it as [tenantConfigs[key]] with a key that is a string at run
    time (the [TenantId] type is not checked, and the default id comes
    from [process.env]), so reads go through [Js.index]. *)
Definition tenantConfigs (env : ProcessEnv) : gmap string TenantConfig :=
  list_to_map
    [ ("default", tenant_default env);
      ("tenant-1", tenant_1);
      ("tenant-2", tenant_2);
      ("tenant-3", tenant_3) ].

(** What [tenantConfigs[key]] evaluates to when it is not [undefined],
    and so what [currentTenant] can hold: a descriptor of the table or,
    for a key such as ['constructor'], the member of [Object.prototype]
    of that name.  Such a member has none of the properties of a
    descriptor: [tenant.id] and [tenant.api] are [undefined] on it. *)
Module Tenant.

Inductive t :=
| Entry (cfg : TenantConfig)
| Inherited (k : string).

Definition id (tenant : t) : option string :=
  match tenant with
  | Entry cfg => Some (id cfg)
  | Inherited _ => None
  end.

Definition api (tenant : t) : option TenantApiConfig :=
  match tenant with
  | Entry cfg => Some (api cfg)
  | Inherited _ => None
  end.

Definition featureFlags (tenant : t) : option (gmap string Js.value) :=
  match tenant with
  | Entry cfg => Some (featureFlags cfg)
  | Inherited _ => None
  end.

Definition permissions (tenant : t) : option (gmap string Js.value) :=
  match tenant with
  | Entry cfg => Some (permissions cfg)
  | Inherited _ => None
  end.

End Tenant.

Module TenantLoader.

(** [private static currentTenant: TenantConfig | null]. *)
Definition state := option Tenant.t.

Section WithEnv.
Variable env : ProcessEnv.

(** [tenantConfigs[key]] *)
Definition lookupTenant (key : string) : option Tenant.t :=
  Js.index Tenant.Inherited (Tenant.Entry <$> tenantConfigs env) key.

(** [process.env.EXPO_PUBLIC_TENANT_ID || 'default'] *)
Definition defaultTenantId : string :=
  Js.str_or (EXPO_PUBLIC_TENANT_ID env) "default".

(** [tenantConfigs[defaultTenantId] || tenantConfigs.default]; whatever
    the lookup finds is an object or a function, hence truthy. *)
Definition resolveDefault : Tenant.t :=
  default (Tenant.Entry (tenant_default env)) (lookupTenant defaultTenantId).

(** [loadTenant(tenantId?)]: the value the promise resolves with and
    the new value of [currentTenant]. *)
Definition loadTenant (tenantId : option string) (st : state)
    : Tenant.t * state :=
  match Js.held tenantId ≫= lookupTenant with
  | Some tenant => (tenant, Some tenant)
  | None => (resolveDefault, Some resolveDefault)
  end.

Definition getCurrentTenant (st : state) : Tenant.t * state :=
  match st with
  | Some tenant => (tenant, Some tenant)
  | None => (resolveDefault, Some resolveDefault)
  end.

(** [tenant.featureFlags[feature] ?? false]; the result is [None] when
    the read throws a [TypeError], which it does when the current
    tenant has no [featureFlags]. *)
Definition isFeatureEnabled (feature : string) (st : state)
    : option Js.value * state :=
  let '(tenant, st) := getCurrentTenant st in
  (flags ← Tenant.featureFlags tenant;
   Some (Js.nullish (Js.index Js.VInherited flags feature) (Js.VBool false)), st).

Definition hasPermission (permission : string) (st : state)
    : option Js.value * state :=
  let '(tenant, st) := getCurrentTenant st in
  (granted ← Tenant.permissions tenant;
   Some (Js.nullish (Js.index Js.VInherited granted permission) (Js.VBool false)), st).

End WithEnv.

End TenantLoader.

(** [export const getTenantConfig = () => TenantLoader.getCurrentTenant()] *)
Definition getTenantConfig := TenantLoader.getCurrentTenant.

(** ** axios, as far as the client uses it *)

(** The properties of a response body that the client reads, at the
    types the code declares for them; [payload] is the rest, opaque. *)
Module Body.
Record t := {
  payload : string;
  message : option string;
  errors : option (list string);
  accessToken : option string;
}.
End Body.

(** [AxiosHeaders]: the headers of a request.  The name of a header is
    a token of ASCII characters and its case does not matter: for axios
    [accept] and [Accept] are one header, whether it merges per-call
    options into defaults, is given a property by an interceptor, or
    hands the headers to the adapter, and the value written last is the
    value sent.  A collection of headers is therefore a map from the
    lower-case names; [h !! name], [<[name := v]> h] and [{[name := v]}]
    take the name in any case. *)
Module AxiosHeaders.
Record t := of_names { names : gmap string string }.

Definition get (name : string) (h : t) : option string :=
  names h !! toLowerCase name.

Definition set (name value : string) (h : t) : t :=
  of_names (<[toLowerCase name := value]> (names h)).

(** A header that is given the value [undefined] is not sent. *)
Definition unset (name : string) (h : t) : t :=
  of_names (delete (toLowerCase name) (names h)).

(** [AxiosHeaders.concat(a, b)]: the headers of [b] over those of [a]. *)
Definition concat (a b : t) : t := of_names (names b ∪ names a).

#[global] Instance no_headers : Empty t := of_names ∅.
#[global] Instance header_lookup : Lookup string string t := get.
#[global] Instance header_insert : Insert string string t := set.
#[global] Instance header_singleton : SingletonM string string t :=
  fun name value => set name value ∅.

(** The headers an object literal stands for: its properties in order,
    a later one replacing an earlier one of the same name. *)
Definition from (properties : list (string * string)) : t :=
  foldl (fun h p => set (fst p) (snd p) h) ∅ properties.
End AxiosHeaders.

(** [InternalAxiosRequestConfig & { _retry?: boolean }].  axios keeps
    properties it does not know when a configuration is submitted again,
    so the [_retry] mark set on [error.config] is still there when the
    reissued request fails. *)
Module RequestConfig.
Record t := {
  method : string;
  url : string;
  baseURL : string;
  timeout : Z;
  headers : AxiosHeaders.t;
  data : option string;
  _retry : bool;
}.

Definition set_header (k v : string) (c : t) : t :=
  {| method := method c; url := url c; baseURL := baseURL c;
     timeout := timeout c; headers := <[k := v]> (headers c);
     data := data c; _retry := _retry c |}.

(** [config.headers[k] = v] where [v] may be [undefined]. *)
Definition assign_header (k : string) (v : option string) (c : t) : t :=
  match v with
  | Some v => set_header k v c
  | None =>
      {| method := method c; url := url c; baseURL := baseURL c;
         timeout := timeout c; headers := AxiosHeaders.unset k (headers c);
         data := data c; _retry := _retry c |}
  end.

Definition set_retry (b : bool) (c : t) : t :=
  {| method := method c; url := url c; baseURL := baseURL c;
     timeout := timeout c; headers := headers c;
     data := data c; _retry := b |}.
End RequestConfig.

(** [AxiosResponse]; its [config] field is only logged and is left out. *)
Module AxiosResponse.
Record t := {
  status : Z;
  data : option Body.t;
}.
End AxiosResponse.

Module AxiosError.
Record t := {
  message : string;
  code : option string;
  config : RequestConfig.t;
  response : option AxiosResponse.t;
}.

(** [error.response?.status] *)
Definition status (e : t) : option Z :=
  AxiosResponse.status <$> response e.

(** [error.response?.data?.errors] and [error.response?.data?.message] *)
Definition data_errors (e : t) : option (list string) :=
  r ← response e; d ← AxiosResponse.data r; Body.errors d.

Definition data_message (e : t) : option string :=
  r ← response e; d ← AxiosResponse.data r; Body.message d.
End AxiosError.

(** The per-call options of the verb methods, by their headers: the
    part of a request that the interceptors read and write.  Options
    that replace [baseURL] or [timeout] for one call are not modelled. *)
Module AxiosRequestConfig.
Record t := { headers : AxiosHeaders.t }.
End AxiosRequestConfig.

(** [axios.create({ baseURL, timeout, headers })] *)
Module AxiosInstance.
Record t := {
  baseURL : string;
  timeout : Z;
  headers : AxiosHeaders.t;
}.

(** The request an instance builds from its defaults and the per-call
    options; a header of the call wins over the default of the same
    name, in whatever case either is written. *)
Definition mergeConfig (inst : t) (method url : string)
    (data : option string) (config : option AxiosRequestConfig.t)
    : RequestConfig.t :=
  {| RequestConfig.method := method;
     RequestConfig.url := url;
     RequestConfig.baseURL := baseURL inst;
     RequestConfig.timeout := timeout inst;
     RequestConfig.headers :=
       AxiosHeaders.concat (headers inst)
         (from_option AxiosRequestConfig.headers ∅ config);
     RequestConfig.data := data;
     RequestConfig._retry := false |}.
End AxiosInstance.

(** ** api-client.ts: interfaces *)

Module ApiResponse.
Record t := {
  data : option Body.t;
  message : option string;
  success : bool;
  errors : option (list string);
}.
End ApiResponse.

Module ApiError.
Record t := {
  message : string;
  code : option string;
  status : option Z;
  errors : option (list string);
}.
End ApiError.

(** What a promise can be rejected with: an [AxiosError], a plain
    [ApiError] object literal, or some other [Error] instance. *)
Inductive Thrown :=
| ThrownAxios (e : AxiosError.t)
| ThrownApi (e : ApiError.t)
| ThrownError (message : string).

(** ** The network and the client state *)

(** What reaches an adapter: [Sent c], the configuration [c] of one
    attempt as the instance hands it to its adapter once the request
    interceptor has run; [Refreshed url token], the refresh request of
    the global [axios.post].  What the adapter itself does to a
    request before it is on the wire (it may drop the [Content-Type] of
    a request without a body) is not modelled. *)
Inductive Event :=
| Sent (c : RequestConfig.t)
| Refreshed (url refreshToken : string).

Inductive Reply :=
| Fulfilled (status : Z) (data : option Body.t)
| Rejected (message : string) (code : option string)
    (response : option AxiosResponse.t).

(** A server answers a request given all that went over the wire so far:
    [transport] is the adapter behind the client's axios instance,
    [refresh_endpoint] the one behind the global [axios.post]. *)
Record Network := {
  transport : list Event -> RequestConfig.t -> Reply;
  refresh_endpoint : list Event -> string -> string -> Reply;
}.

Record ApiClient := {
  client : AxiosInstance.t;
  accessToken : option string;
  refreshToken : option string;
}.

Record World := {
  loader : TenantLoader.state;
  apiClient : ApiClient;
  trace : list Event;
}.

Definition set_loader (l : TenantLoader.state) (w : World) : World :=
  {| loader := l; apiClient := apiClient w; trace := trace w |}.

Definition set_tokens (a r : option string) (w : World) : World :=
  {| loader := loader w;
     apiClient := {| client := client (apiClient w);
                     accessToken := a; refreshToken := r |};
     trace := trace w |}.

Definition record (e : Event) (w : World) : World :=
  {| loader := loader w; apiClient := apiClient w; trace := trace w ++ [e] |}.

(** ** Promises: state, rejection, and a bound on nested calls *)

Inductive Result (A : Type) :=
| Ok (a : A)
| Throw (e : Thrown).
Arguments Ok {A} a.
Arguments Throw {A} e.

(** [None] only when the bound on nested calls is exhausted. *)
Definition M (A : Type) : Type := World -> option (Result A * World).

Definition ret {A} (a : A) : M A := fun w => Some (Ok a, w).

Definition bind {A B} (m : M A) (k : A -> M B) : M B := fun w =>
  match m w with
  | Some (Ok a, w') => k a w'
  | Some (Throw e, w') => Some (Throw e, w')
  | None => None
  end.

Definition throw {A} (e : Thrown) : M A := fun w => Some (Throw e, w).

(** [try { m } catch (e) { h e }]: the handler runs in the state the
    failing computation left behind. *)
Definition try_catch {A} (m : M A) (h : Thrown -> M A) : M A := fun w =>
  match m w with
  | Some (Throw e, w') => h e w'
  | r => r
  end.

Definition gets {A} (f : World -> A) : M A := fun w => Some (Ok (f w), w).

Definition modify (f : World -> World) : M unit := fun w => Some (Ok tt, f w).

Definition out_of_depth {A} : M A := fun _ => None.

Notation "'let*' x ':=' m 'in' k" := (bind m (fun x => k))
  (at level 10, x name, m at level 100, k at level 200).

(** ** api-client.ts: the class [ApiClient] *)

Section Client.
Variable env : ProcessEnv.
Variable net : Network.

(** [getTenantConfig()] from inside the client: it may resolve the
    loader's default as a side effect. *)
Definition currentTenantConfig : M Tenant.t := fun w =>
  let '(tenant, l) := getTenantConfig env (loader w) in
  Some (Ok tenant, set_loader l w).

(** [axios.create({ baseURL: api.baseUrl, timeout: api.timeout, headers })]
    with both tokens [null]. *)
Definition newClient (api : TenantApiConfig) : ApiClient :=
  {| client :=
       {| AxiosInstance.baseURL := baseUrl api;
          AxiosInstance.timeout := timeout api;
          AxiosInstance.headers :=
            {[ "Content-Type" := "application/json";
               "Accept" := "application/json" ]} |};
     accessToken := None;
     refreshToken := None |}.

(** [constructor()]: the axios instance is created from the tenant that
    is current at that moment.  [tenant.api.baseUrl] throws a
    [TypeError] when the current tenant has no [api]: then there is no
    client ([None]). *)
Definition constructor (l : TenantLoader.state)
    : option ApiClient * TenantLoader.state :=
  let '(tenant, l) := getTenantConfig env l in
  (newClient <$> Tenant.api tenant, l).

Definition setAccessToken (token : string) : M unit :=
  modify (fun w => set_tokens (Some token) (refreshToken (apiClient w)) w).

Definition setRefreshToken (token : string) : M unit :=
  modify (fun w => set_tokens (accessToken (apiClient w)) (Some token) w).

Definition clearTokens : M unit :=
  modify (set_tokens None None).

(** The request interceptor (logging left out). *)
Definition requestInterceptor (config : RequestConfig.t) : M RequestConfig.t :=
  let* token := gets (fun w => accessToken (apiClient w)) in
  let config :=
    match Js.held token with
    | Some tok => RequestConfig.set_header "Authorization" ("Bearer " ++ tok) config
    | None => config
    end in
  let* tenant := currentTenantConfig in
  ret (RequestConfig.assign_header "X-Tenant-ID" (Tenant.id tenant) config).

(** The adapter of the instance: one HTTP attempt.  A reply that axios
    rejects becomes an [AxiosError] carrying the request it answers. *)
Definition dispatchRequest (config : RequestConfig.t)
    : M (AxiosResponse.t + AxiosError.t) := fun w =>
  Some (Ok match transport net (trace w) config with
           | Fulfilled status data =>
               inl {| AxiosResponse.status := status;
                      AxiosResponse.data := data |}
           | Rejected message code response =>
               inr {| AxiosError.message := message;
                      AxiosError.code := code;
                      AxiosError.config := config;
                      AxiosError.response := response |}
           end,
        record (Sent config) w).

(** The global [axios.post(url, { refreshToken })], outside the
    instance and so outside its interceptors. *)
Definition axios_post (url token : string) : M AxiosResponse.t := fun w =>
  let w' := record (Refreshed url token) w in
  match refresh_endpoint net (trace w) url token with
  | Fulfilled status data =>
      Some (Ok {| AxiosResponse.status := status;
                  AxiosResponse.data := data |}, w')
  | Rejected message code response =>
      Some (Throw (ThrownAxios
              {| AxiosError.message := message;
                 AxiosError.code := code;
                 AxiosError.config :=
                   {| RequestConfig.method := "post";
                      RequestConfig.url := url;
                      RequestConfig.baseURL := "";
                      RequestConfig.timeout := 0;
                      RequestConfig.headers := ∅;
                      RequestConfig.data := Some token;
                      RequestConfig._retry := false |};
                 AxiosError.response := response |}), w')
  end.

(** [refreshAccessToken()]: [getTenantConfig().api.baseUrl] throws a
    [TypeError] when the current tenant has no [api], before anything
    is sent, and [response.data.accessToken] throws one when the body
    is missing; the [catch] turns every failure into [null]. *)
Definition refreshAccessToken : M (option string) :=
  let* token := gets (fun w => refreshToken (apiClient w)) in
  match Js.held token with
  | None => ret None
  | Some token =>
      try_catch
        (let* tenant := currentTenantConfig in
         match Tenant.api tenant with
         | None => throw (ThrownError "TypeError")
         | Some api =>
             let* response := axios_post (baseUrl api ++ "/auth/refresh") token in
             match AxiosResponse.data response with
             | None => throw (ThrownError "TypeError")
             | Some body => ret (Js.held (Body.accessToken body))
             end
         end)
        (fun _ => ret None)
  end.

(** The [ApiError] the response interceptor builds from an error. *)
Definition apiError (error : AxiosError.t) : ApiError.t :=
  {| ApiError.message := AxiosError.message error;
     ApiError.code := AxiosError.code error;
     ApiError.status := AxiosError.status error;
     ApiError.errors :=
       Some (Js.arr_or (AxiosError.data_errors error)
                       [AxiosError.message error]) |}.

(** The rejection handler of the response interceptor.  [self] is
    [this.client]: the instance itself, interceptors included.

    [return this.client(originalRequest)] is not awaited inside the
    [try], so the [catch] guards the refresh and the token update but
    not the reissued request: [next] is what the [try] block decides,
    the reissue happens after it. *)
Definition responseRejected (self : RequestConfig.t -> M AxiosResponse.t)
    (error : AxiosError.t) : M AxiosResponse.t :=
  let originalRequest := AxiosError.config error in
  if bool_decide (AxiosError.status error = Some 401%Z)
     && negb (RequestConfig._retry originalRequest)
  then
    let originalRequest := RequestConfig.set_retry true originalRequest in
    let* next :=
      try_catch
        (let* newToken := refreshAccessToken in
         match Js.held newToken with
         | Some newToken =>
             let* _ := setAccessToken newToken in
             ret (Some (RequestConfig.set_header "Authorization"
                          ("Bearer " ++ newToken) originalRequest))
         | None => ret None
         end)
        (fun refreshError =>
           let* _ := clearTokens in
           throw refreshError) in
    match next with
    | Some originalRequest => self originalRequest
    | None => throw (ThrownApi (apiError error))
    end
  else throw (ThrownApi (apiError error)).

(** One pass of a request through the instance: request interceptor,
    adapter, response interceptor.  The success handler of the response
    interceptor and the error handler of the request interceptor only
    log and pass their argument on. *)
Definition pipeline (self : RequestConfig.t -> M AxiosResponse.t)
    (config : RequestConfig.t) : M AxiosResponse.t :=
  let* config := requestInterceptor config in
  let* outcome := dispatchRequest config in
  match outcome with
  | inl response => ret response
  | inr error => responseRejected self error
  end.

(** [this.client(config)], with a bound on how deep the interceptor may
    call back into the instance.  axios merges the defaults of the
    instance into every configuration it is given; a configuration that
    is submitted again came out of that merge and the interceptors have
    only written [Authorization] and [X-Tenant-ID] since, so the merge
    is made once, in [client_call]. *)
Fixpoint client_request (depth : nat) (config : RequestConfig.t)
    : M AxiosResponse.t :=
  match depth with
  | O => out_of_depth
  | S depth => pipeline (client_request depth) config
  end.

(** The [_retry] mark allows one nested call, so two levels are enough
    (see [client_request_depth]). *)
Definition max_depth : nat := 2.

(** [this.client.get/post/...(url, data, config)] *)
Definition client_call (method url : string) (data : option string)
    (config : option AxiosRequestConfig.t) : M AxiosResponse.t :=
  let* inst := gets (fun w => client (apiClient w)) in
  client_request max_depth (AxiosInstance.mergeConfig inst method url data config).

Definition handleError (error : Thrown) : ApiError.t :=
  match error with
  | ThrownAxios error =>
      {| ApiError.message :=
           Js.str_or (AxiosError.data_message error) (AxiosError.message error);
         ApiError.code := AxiosError.code error;
         ApiError.status := AxiosError.status error;
         ApiError.errors :=
           Some (Js.arr_or (AxiosError.data_errors error)
                           [AxiosError.message error]) |}
  | ThrownError message =>
      {| ApiError.message := message; ApiError.code := None;
         ApiError.status := None; ApiError.errors := None |}
  | ThrownApi _ =>
      {| ApiError.message := "Unknown error occurred"; ApiError.code := None;
         ApiError.status := None; ApiError.errors := None |}
  end.

(** The body the five verb methods share. *)
Definition verb (method url : string) (data : option string)
    (config : option AxiosRequestConfig.t) : M ApiResponse.t :=
  try_catch
    (let* response := client_call method url data config in
     ret {| ApiResponse.data := AxiosResponse.data response;
            ApiResponse.message := None;
            ApiResponse.success := true;
            ApiResponse.errors := None |})
    (fun error => throw (ThrownApi (handleError error))).

Definition get (url : string) (config : option AxiosRequestConfig.t) :=
  verb "get" url None config.

Definition post (url : string) (data : option string)
    (config : option AxiosRequestConfig.t) :=
  verb "post" url data config.

Definition put (url : string) (data : option string)
    (config : option AxiosRequestConfig.t) :=
  verb "put" url data config.

Definition patch (url : string) (data : option string)
    (config : option AxiosRequestConfig.t) :=
  verb "patch" url data config.

Definition delete (url : string) (config : option AxiosRequestConfig.t) :=
  verb "delete" url None config.

End Client.

(** ** Notions used to state the properties *)

Section Notions.
Variable env : ProcessEnv.
Variable net : Network.

(** The loader holds nothing yet or a descriptor of the table. *)
Definition from_table (st : TenantLoader.state) : Prop :=
  match st with
  | Some (Tenant.Entry cfg) => exists k, tenantConfigs env !! k = Some cfg
  | Some (Tenant.Inherited _) => False
  | None => True
  end.

(** The tenant a request made in [w] is tagged with, and [w] once the
    loader has resolved it. *)
Definition tenantNow (w : World) : Tenant.t :=
  fst (getTenantConfig env (loader w)).

Definition resolved (w : World) : World :=
  set_loader (snd (getTenantConfig env (loader w))) w.

(** Where a refresh request made in [w] goes; there is none when the
    current tenant has no [api]. *)
Definition refreshUrl (w : World) : option string :=
  (fun api => baseUrl api ++ "/auth/refresh") <$> Tenant.api (tenantNow w).

(** What a reply of the refresh endpoint is worth to
    [refreshAccessToken]. *)
Definition refreshedToken (reply : Reply) : option string :=
  match reply with
  | Fulfilled _ (Some body) => Js.held (Body.accessToken body)
  | _ => None
  end.

Definition refreshOutcome (w : World) : option string :=
  match Js.held (refreshToken (apiClient w)), refreshUrl w with
  | Some token, Some url => refreshedToken (refresh_endpoint net (trace w) url token)
  | _, _ => None
  end.

Definition afterRefresh (w : World) : World :=
  match Js.held (refreshToken (apiClient w)), refreshUrl w with
  | Some token, Some url => record (Refreshed url token) (resolved w)
  | Some _, None => resolved w
  | None, _ => w
  end.

(** The refresh request that a call answered 401 makes from [w], if it
    makes one. *)
Definition refreshEvents (w : World) : list Event :=
  match Js.held (refreshToken (apiClient w)), refreshUrl w with
  | Some token, Some url => [Refreshed url token]
  | _, _ => []
  end.

(** The state in which the reissued request starts. *)
Definition withNewToken (newToken : string) (w : World) : World :=
  set_tokens (Some newToken) (refreshToken (apiClient (afterRefresh w))) (afterRefresh w).

Definition reissued (newToken : string) (originalRequest : RequestConfig.t)
    : RequestConfig.t :=
  RequestConfig.set_header "Authorization" ("Bearer " ++ newToken)
    (RequestConfig.set_retry true originalRequest).

(** The request as the interceptor sends it from [w]. *)
Definition outbound (w : World) (config : RequestConfig.t) : RequestConfig.t :=
  RequestConfig.assign_header "X-Tenant-ID" (Tenant.id (tenantNow w))
    match Js.held (accessToken (apiClient w)) with
    | Some tok => RequestConfig.set_header "Authorization" ("Bearer " ++ tok) config
    | None => config
    end.

Definition rejection (reply_message : string) (reply_code : option string)
    (config : RequestConfig.t) (reply_response : option AxiosResponse.t)
    : AxiosError.t :=
  {| AxiosError.message := reply_message; AxiosError.code := reply_code;
     AxiosError.config := config; AxiosError.response := reply_response |}.

(** What holds of the events a call adds after its first attempt: a
    reissued request is tagged and targeted like the first one and
    carries the access token stored when the call ends. *)
Definition follow_up (w w' : World) (config : RequestConfig.t) (e : Event) : Prop :=
  match e with
  | Sent c =>
      RequestConfig.headers c !! "X-Tenant-ID" = Tenant.id (tenantNow w) /\
      RequestConfig.baseURL c = RequestConfig.baseURL config /\
      RequestConfig.timeout c = RequestConfig.timeout config /\
      exists tok, Js.held (accessToken (apiClient w')) = Some tok /\
                  RequestConfig.headers c !! "Authorization" = Some ("Bearer " ++ tok)
  | Refreshed _ _ => True
  end.

Definition successResult (response : AxiosResponse.t) : ApiResponse.t :=
  {| ApiResponse.data := AxiosResponse.data response;
     ApiResponse.message := None;
     ApiResponse.success := true;
     ApiResponse.errors := None |}.

Definition unknownError : ApiError.t :=
  {| ApiError.message := "Unknown error occurred"; ApiError.code := None;
     ApiError.status := None; ApiError.errors := None |}.

(** [export const apiClient = new ApiClient()] at module load; [None]
    when the constructor throws, and then there is no client to call. *)
Definition boot (l : TenantLoader.state) : option World :=
  let '(c, l) := constructor env l in
  (fun c => {| loader := l; apiClient := c; trace := [] |}) <$> c.

Inductive Op :=
| OpLoadTenant (tenantId : option string)
| OpGetCurrentTenant
| OpSetAccessToken (token : string)
| OpSetRefreshToken (token : string)
| OpClearTokens
| OpVerb (method url : string) (data : option string)
    (config : option AxiosRequestConfig.t).

(** An operation that gives [loadTenant] no name of a member of
    [Object.prototype], as every call does that respects the type
    [TenantId]. *)
Definition no_inherited_id (op : Op) : Prop :=
  match op with
  | OpLoadTenant (Some tenantId) => Js.inherits tenantId = false
  | _ => True
  end.

Definition settle {A} (m : M A) (w : World) : World :=
  match m w with
  | Some (_, w') => w'
  | None => w
  end.

Definition run_op (w : World) (op : Op) : World :=
  match op with
  | OpLoadTenant tenantId =>
      set_loader (snd (TenantLoader.loadTenant env tenantId (loader w))) w
  | OpGetCurrentTenant =>
      set_loader (snd (TenantLoader.getCurrentTenant env (loader w))) w
  | OpSetAccessToken token => settle (setAccessToken token) w
  | OpSetRefreshToken token => settle (setRefreshToken token) w
  | OpClearTokens => settle clearTokens w
  | OpVerb method url data config => settle (verb env net method url data config) w
  end.

Definition run_ops (ops : list Op) (w : World) : World := foldl run_op w ops.

End Notions.

(** ** Concrete inputs *)

(** A process configuration with no variable set. *)
Definition env_unset : ProcessEnv :=
  {| EXPO_PUBLIC_API_URL_DEV := None; EXPO_PUBLIC_TENANT_ID := None |}.

Definition is_sent (e : Event) : bool :=
  match e with Sent _ => true | Refreshed _ _ => false end.

Definition json_body (message : option string) (errors : option (list string))
    (token : option string) : Body.t :=
  {| Body.payload := "{}"; Body.message := message;
     Body.errors := errors; Body.accessToken := token |}.

Definition unauthorized : Reply :=
  Rejected "Request failed with status code 401" (Some "ERR_BAD_REQUEST")
    (Some {| AxiosResponse.status := 401; AxiosResponse.data := None |}).

(** The first attempt is answered 401, later ones 200; the refresh
    endpoint issues ["A2"]. *)
Definition net_refresh_ok : Network :=
  {| transport := fun history _ =>
       if existsb is_sent history
       then Fulfilled 200 (Some (json_body None None None))
       else unauthorized;
     refresh_endpoint := fun _ _ _ =>
       Fulfilled 200 (Some (json_body None None (Some "A2"))) |}.

(** Every attempt is answered 401 and the refresh endpoint is
    unreachable. *)
Definition net_refresh_down : Network :=
  {| transport := fun _ _ => unauthorized;
     refresh_endpoint := fun _ _ _ =>
       Rejected "Network Error" (Some "ERR_NETWORK") None |}.

(** Every attempt is answered 500 with a structured error body. *)
Definition net_server_error : Network :=
  {| transport := fun _ _ =>
       Rejected "Request failed with status code 500" (Some "ERR_BAD_RESPONSE")
         (Some {| AxiosResponse.status := 500;
                  AxiosResponse.data :=
                    Some (json_body (Some "Quota exceeded") (Some ["quota"]) None) |});
     refresh_endpoint := fun _ _ _ =>
       Rejected "Network Error" (Some "ERR_NETWORK") None |}.

(** Every attempt is answered 200. *)
Definition net_ok : Network :=
  {| transport := fun _ _ => Fulfilled 200 (Some (json_body None None None));
     refresh_endpoint := fun _ _ _ =>
       Rejected "Network Error" (Some "ERR_NETWORK") None |}.

(** The process right after the client module is loaded, nothing set
    in its environment: the default tenant is current (see
    [boot_unset]). *)
Definition started : World :=
  {| loader := Some (Tenant.Entry (tenant_default env_unset));
     apiClient := newClient (api (tenant_default env_unset));
     trace := [] |}.

(** After login: [accessToken = "A1"], [refreshToken = "R1"]. *)
Definition logged_in : World :=
  settle (setRefreshToken "R1") (settle (setAccessToken "A1") started).

(** An access token but no refresh token. *)
Definition access_only : World :=
  settle (setAccessToken "A1") started.

Definition basic_auth : AxiosRequestConfig.t :=
  {| AxiosRequestConfig.headers := {[ "Authorization" := "Basic dXNlcjpwdw==" ]} |}.

(** A process whose configured default tenant id is the name of a
    member of [Object.prototype]. *)
Definition env_constructor : ProcessEnv :=
  {| EXPO_PUBLIC_API_URL_DEV := None; EXPO_PUBLIC_TENANT_ID := Some "constructor" |}.

(** * Further modules of the application

    The modules around the client: the environment table, the logger,
    the error handler, and the auth repository, thunks and slice that
    call the client.  The logger has a state of its own (its buffer,
    what it printed, what it sent to Sentry); the time of a call is an
    argument, [JSON.stringify] and the Sentry module are parameters. *)

(** ** core/config/environment.ts *)

(** The variables of [process.env] that the environment module reads
    besides [EXPO_PUBLIC_API_URL_DEV]. *)
Record BuildVars := {
  EXPO_PUBLIC_ENV : option string;
  NODE_ENV : option string;
  EXPO_PUBLIC_API_URL_STAGING : option string;
  EXPO_PUBLIC_API_URL_PROD : option string;
  EXPO_PUBLIC_SENTRY_DSN : option string;
}.

Inductive Environment := dev | staging | production.

Module EnvironmentConfig.
Record flags := {
  enableAnalytics : bool;
  enableCrashReporting : bool;
  enableRemoteConfig : bool;
}.

Record t := {
  environment : Environment;
  apiBaseUrl : string;
  apiTimeout : Z;
  enableLogging : bool;
  enableSentry : bool;
  sentryDsn : option string;
  featureFlags : flags;
}.
End EnvironmentConfig.

(** [a || b] where both are [string | undefined]. *)
Definition or_undefined (a b : option string) : option string :=
  match Js.held a with
  | Some s => Some s
  | None => b
  end.

Definition getEnvironment (vars : BuildVars) : Environment :=
  let env := Js.str_or (or_undefined (EXPO_PUBLIC_ENV vars) (NODE_ENV vars)) "dev" in
  if bool_decide (env = "production" \/ env = "prod") then production
  else if bool_decide (env = "staging" \/ env = "stage") then staging
  else dev.

Definition createEnvironmentConfig (penv : ProcessEnv) (vars : BuildVars)
    (env : Environment) : EnvironmentConfig.t :=
  match env with
  | dev =>
      {| EnvironmentConfig.environment := env;
         EnvironmentConfig.apiBaseUrl :=
           Js.str_or (EXPO_PUBLIC_API_URL_DEV penv) "https://api-dev.example.com";
         EnvironmentConfig.apiTimeout := 30000;
         EnvironmentConfig.enableLogging := true;
         EnvironmentConfig.enableSentry := false;
         EnvironmentConfig.sentryDsn := None;
         EnvironmentConfig.featureFlags :=
           {| EnvironmentConfig.enableAnalytics := false;
              EnvironmentConfig.enableCrashReporting := false;
              EnvironmentConfig.enableRemoteConfig := false |} |}
  | staging =>
      {| EnvironmentConfig.environment := env;
         EnvironmentConfig.apiBaseUrl :=
           Js.str_or (EXPO_PUBLIC_API_URL_STAGING vars) "https://api-staging.example.com";
         EnvironmentConfig.apiTimeout := 30000;
         EnvironmentConfig.enableLogging := true;
         EnvironmentConfig.enableSentry := true;
         EnvironmentConfig.sentryDsn := EXPO_PUBLIC_SENTRY_DSN vars;
         EnvironmentConfig.featureFlags :=
           {| EnvironmentConfig.enableAnalytics := true;
              EnvironmentConfig.enableCrashReporting := true;
              EnvironmentConfig.enableRemoteConfig := true |} |}
  | production =>
      {| EnvironmentConfig.environment := env;
         EnvironmentConfig.apiBaseUrl :=
           Js.str_or (EXPO_PUBLIC_API_URL_PROD vars) "https://api.example.com";
         EnvironmentConfig.apiTimeout := 20000;
         EnvironmentConfig.enableLogging := false;
         EnvironmentConfig.enableSentry := true;
         EnvironmentConfig.sentryDsn := EXPO_PUBLIC_SENTRY_DSN vars;
         EnvironmentConfig.featureFlags :=
           {| EnvironmentConfig.enableAnalytics := true;
              EnvironmentConfig.enableCrashReporting := true;
              EnvironmentConfig.enableRemoteConfig := true |} |}
  end.

(** [export const environmentConfig = createEnvironmentConfig(getEnvironment())] *)
Definition environmentConfig (penv : ProcessEnv) (vars : BuildVars)
    : EnvironmentConfig.t :=
  createEnvironmentConfig penv vars (getEnvironment vars).

Definition isDevelopment (cfg : EnvironmentConfig.t) : bool :=
  match EnvironmentConfig.environment cfg with dev => true | _ => false end.

Definition isStaging (cfg : EnvironmentConfig.t) : bool :=
  match EnvironmentConfig.environment cfg with staging => true | _ => false end.

Definition isProduction (cfg : EnvironmentConfig.t) : bool :=
  match EnvironmentConfig.environment cfg with production => true | _ => false end.

(** ** core/logging/logger.ts *)

Inductive LogLevel := DEBUG | INFO | WARN | ERROR.

(** An [Error] instance, by the two properties that are read. *)
Module JsError.
Record t := {
  message : string;
  stack : option string;
}.
End JsError.

(** [Record<string, unknown>]: an object literal as the list of its
    properties, in order. *)
#[warnings="-register-all"] Inductive CtxValue :=
| CUndefined
| CString (s : string)
| CError (e : JsError.t)
| CObject (props : list (string * CtxValue)).

Definition LogContext := list (string * CtxValue).

Module LogEntry.
Record t := {
  level : LogLevel;
  message : string;
  timestamp : string;
  context : option LogContext;
  error : option JsError.t;
}.
End LogEntry.

Inductive ConsoleMethod :=
| console_debug | console_info | console_warn | console_error | console_log.

Inductive SentryCall :=
| captureException (error : JsError.t) (custom : option LogContext) (tags : LogContext)
| captureMessage (message : string) (level : string) (custom : option LogContext)
    (tags : LogContext).

(** The logger's buffer and what it has sent to the console and to
    Sentry. *)
Record LoggerState := {
  logs : list LogEntry.t;
  console : list (ConsoleMethod * string);
  sentry : list SentryCall;
}.

Definition maxLogs : nat := 100.

Definition levelName (l : LogLevel) : string :=
  match l with
  | DEBUG => "DEBUG" | INFO => "INFO" | WARN => "WARN" | ERROR => "ERROR"
  end.

(** [level.toLowerCase()] *)
Definition levelLower (l : LogLevel) : string :=
  match l with
  | DEBUG => "debug" | INFO => "info" | WARN => "warn" | ERROR => "error"
  end.

Definition isError (l : LogLevel) : bool :=
  match l with ERROR => true | _ => false end.

(** The character written [\n] in the source. *)
Definition newline : string := String (Ascii.ascii_of_nat 10) EmptyString.

Module Logger.
Section WithConfig.
(** The configuration of the process, [JSON.stringify(context, null, 2)],
    and whether [require('@sentry/react-native')] and the capture calls
    go through. *)
Variable cfg : EnvironmentConfig.t.
Variable stringify : LogContext -> string.
Variable sentryWorks : bool.

Definition shouldLog (level : LogLevel) : bool :=
  if negb (EnvironmentConfig.enableLogging cfg) then false
  else match EnvironmentConfig.environment cfg with
       | production => match level with ERROR | WARN => true | _ => false end
       | _ => true
       end.

Definition getLogMethod (level : LogLevel) : ConsoleMethod :=
  match level with
  | DEBUG => console_debug
  | INFO => console_info
  | WARN => console_warn
  | ERROR => console_error
  end.

Definition formatMessage (entry : LogEntry.t) : string :=
  let parts :=
    [ "[" ++ LogEntry.timestamp entry ++ "]";
      "[" ++ levelName (LogEntry.level entry) ++ "]";
      LogEntry.message entry ] in
  let parts :=
    match LogEntry.context entry with
    | Some context => (parts ++ [stringify context])%list
    | None => parts
    end in
  let parts :=
    match LogEntry.error entry with
    | Some error =>
        let parts := (parts ++ [(newline ++ "Error: " ++ JsError.message error)%string])%list in
        match Js.held (JsError.stack error) with
        | Some stack => (parts ++ [(newline ++ "Stack: " ++ stack)%string])%list
        | None => parts
        end
    | None => parts
    end in
  String.concat " " parts.

Definition reportToSentry (level : LogLevel) (message : string)
    (context : option LogContext) (error : option JsError.t) (st : LoggerState)
    : LoggerState :=
  if negb (EnvironmentConfig.enableSentry cfg)
     || negb (bool_decide (is_Some (Js.held (EnvironmentConfig.sentryDsn cfg))))
  then st
  else if sentryWorks then
    {| logs := logs st; console := console st;
       sentry :=
         sentry st ++
         [ match error with
           | Some error =>
               if isError level
               then captureException error context
                      [("logLevel", CString (levelName level))]
               else captureMessage message (levelLower level) context []
           | None => captureMessage message (levelLower level) context []
           end ] |}
  else
    {| logs := logs st;
       console := console st ++ [(console_warn, "Failed to report to Sentry")];
       sentry := sentry st |}.

(** [log]; [now] is [new Date().toISOString()] at the call. *)
Definition log (now : string) (level : LogLevel) (message : string)
    (context : option LogContext) (error : option JsError.t) (st : LoggerState)
    : LoggerState :=
  if negb (shouldLog level) then st
  else
    let entry :=
      {| LogEntry.level := level; LogEntry.message := message;
         LogEntry.timestamp := now; LogEntry.context := context;
         LogEntry.error := error |} in
    let pushed := (logs st ++ [entry])%list in
    let kept := if (maxLogs <? length pushed)%nat then tail pushed else pushed in
    let st :=
      {| logs := kept;
         console := console st ++ [(getLogMethod level, formatMessage entry)];
         sentry := sentry st |} in
    match error with
    | Some _ =>
        if EnvironmentConfig.enableSentry cfg
        then reportToSentry level message context error st
        else st
    | None => st
    end.

Definition debug (now message : string) (context : option LogContext) :=
  log now DEBUG message context None.

Definition info (now message : string) (context : option LogContext) :=
  log now INFO message context None.

Definition warn (now message : string) (context : option LogContext)
    (error : option JsError.t) :=
  log now WARN message context error.

Definition error (now message : string) (context : option LogContext)
    (error : option JsError.t) :=
  log now ERROR message context error.

Definition getLogs (st : LoggerState) : list LogEntry.t := logs st.

Definition clearLogs (st : LoggerState) : LoggerState :=
  {| logs := []; console := console st; sentry := sentry st |}.

End WithConfig.
End Logger.

(** One call of [log], with the time at which it is made. *)
Record LogCall := {
  call_now : string;
  call_level : LogLevel;
  call_message : string;
  call_context : option LogContext;
  call_error : option JsError.t;
}.

Definition entryOf (c : LogCall) : LogEntry.t :=
  {| LogEntry.level := call_level c; LogEntry.message := call_message c;
     LogEntry.timestamp := call_now c; LogEntry.context := call_context c;
     LogEntry.error := call_error c |}.

Definition logAll (cfg : EnvironmentConfig.t) (stringify : LogContext -> string)
    (sentryWorks : bool) (calls : list LogCall) (st : LoggerState) : LoggerState :=
  foldl (fun st c =>
           Logger.log cfg stringify sentryWorks (call_now c) (call_level c)
             (call_message c) (call_context c) (call_error c) st)
        st calls.

(** [private logs: LogEntry[] = []] *)
Definition freshLogger : LoggerState :=
  {| logs := []; console := []; sentry := [] |}.

(** ** core/error/error-handler.ts *)

Module AppError.
Record t := {
  code : string;
  message : string;
  userMessage : string;
  recoverable : bool;
  context : option LogContext;
}.
End AppError.

(** A value of type [unknown], by the tests the handler makes on it.
    [isAppError] tests that it is an object with the properties [code],
    [message], [userMessage] and [recoverable]; they are read at the
    types that the guard [error is AppError] asserts.  [instanceof
    Error] is tested apart from it, so an [Error] that was given the
    three other properties passes both tests: [UAppErrorInstance e
    stack] is such an error, [e] its properties and [stack] its stack.
    [UError] is an [Error] that lacks one of them, [UOther] any value
    that passes no test. *)
Inductive Unknown :=
| UAppError (e : AppError.t)
| UAppErrorInstance (e : AppError.t) (stack : option string)
| UError (e : JsError.t)
| UString (s : string)
| UOther.

(** [s.includes(needle)] *)
Fixpoint includes (needle s : string) : bool :=
  String.prefix needle s ||
  match s with
  | EmptyString => false
  | String _ s => includes needle s
  end.

(** [{ ...o, [k]: v }]: an existing property keeps its place. *)
Fixpoint assign (k : string) (v : CtxValue) (o : LogContext) : LogContext :=
  match o with
  | [] => [(k, v)]
  | (k', v') :: o => if decide (k' = k) then (k, v) :: o else (k', v') :: assign k v o
  end.

Definition boolToString (b : bool) : string := if b then "true" else "false".

Module ErrorHandler.

Definition getUserFriendlyMessage (error : JsError.t) : string :=
  let errorMessage := toLowerCase (JsError.message error) in
  if includes "network" errorMessage || includes "fetch" errorMessage
  then "Network error. Please check your connection and try again."
  else if includes "timeout" errorMessage
  then "Request timed out. Please try again."
  else if includes "unauthorized" errorMessage || includes "401" errorMessage
  then "Your session has expired. Please log in again."
  else if includes "forbidden" errorMessage || includes "403" errorMessage
  then "You do not have permission to perform this action."
  else if includes "not found" errorMessage || includes "404" errorMessage
  then "The requested resource was not found."
  else if includes "server" errorMessage || includes "500" errorMessage
  then "Server error. Please try again later."
  else "An unexpected error occurred. Please try again.".

Definition isAppError (error : Unknown) : bool :=
  match error with
  | UAppError _ | UAppErrorInstance _ _ => true
  | _ => false
  end.

(** [error instanceof Error], with the error as an [Error] when it is
    one. *)
Definition asError (error : Unknown) : option JsError.t :=
  match error with
  | UAppErrorInstance e stack =>
      Some {| JsError.message := AppError.message e; JsError.stack := stack |}
  | UError e => Some e
  | _ => None
  end.

Definition normalizeError (error : Unknown) (context : option LogContext) : AppError.t :=
  match error with
  | UAppError error | UAppErrorInstance error _ => error
  | UError error =>
      {| AppError.code := "UNKNOWN_ERROR";
         AppError.message := JsError.message error;
         AppError.userMessage := getUserFriendlyMessage error;
         AppError.recoverable := true;
         AppError.context :=
           Some (assign "stack"
                   match JsError.stack error with
                   | Some stack => CString stack
                   | None => CUndefined
                   end
                   (default [] context)) |}
  | UString error =>
      {| AppError.code := "STRING_ERROR";
         AppError.message := error;
         AppError.userMessage := "An unexpected error occurred. Please try again.";
         AppError.recoverable := true;
         AppError.context := context |}
  | UOther =>
      {| AppError.code := "UNKNOWN_ERROR";
         AppError.message := "An unknown error occurred";
         AppError.userMessage := "An unexpected error occurred. Please try again.";
         AppError.recoverable := true;
         AppError.context := context |}
  end.

Section WithConfig.
Variable cfg : EnvironmentConfig.t.
Variable stringify : LogContext -> string.
Variable sentryWorks : bool.
(** What the Sentry module throws when it does not work. *)
Variable sentryError : JsError.t.

Definition ctxOf (context : option LogContext) : CtxValue :=
  match context with
  | Some props => CObject props
  | None => CUndefined
  end.

Definition errorTags (appError : AppError.t) : LogContext :=
  [ ("errorCode", CString (AppError.code appError));
    ("recoverable", CString (boolToString (AppError.recoverable appError))) ].

(** [ErrorHandler.reportToSentry]; a failure goes to [Logger.warn]. *)
Definition reportToSentry (now : string) (appError : AppError.t)
    (originalError : Unknown) (st : LoggerState) : LoggerState :=
  if negb (EnvironmentConfig.enableSentry cfg)
     || negb (bool_decide (is_Some (Js.held (EnvironmentConfig.sentryDsn cfg))))
  then st
  else if sentryWorks then
    {| logs := logs st; console := console st;
       sentry :=
         sentry st ++
         [ match asError originalError with
           | Some originalError =>
               captureException originalError (AppError.context appError)
                 (errorTags appError)
           | None =>
               captureMessage (AppError.message appError) "error"
                 (AppError.context appError) (errorTags appError)
           end ] |}
  else
    Logger.warn cfg stringify sentryWorks now "Failed to report to Sentry"
      (Some [("error", CError sentryError)]) None st.

(** [handleError(error, context)]: the normalised error and the effects
    on the logger and on Sentry. *)
Definition handleError (now : string) (error : Unknown)
    (context : option LogContext) (st : LoggerState) : AppError.t * LoggerState :=
  let appError := normalizeError error context in
  let st :=
    Logger.error cfg stringify sentryWorks now "Error handled"
      (Some [ ("code", CString (AppError.code appError));
              ("message", CString (AppError.message appError));
              ("context", ctxOf (AppError.context appError)) ])
      None st in
  let st :=
    if EnvironmentConfig.enableSentry cfg
    then reportToSentry now appError error st
    else st in
  (appError, st).

End WithConfig.
End ErrorHandler.

(** ** features/auth: domain types *)

Module User.
Record t := {
  id : string;
  email : string;
  name : string;
  avatar : option string;
  tenantId : string;
  roles : list string;
  createdAt : string;
  updatedAt : string;
}.
End User.

Module AuthTokens.
Record t := {
  accessToken : string;
  refreshToken : string;
  expiresIn : Z;
}.
End AuthTokens.

Module LoginResponse.
Record t := {
  user : User.t;
  tokens : AuthTokens.t;
}.
End LoginResponse.

(** The [tokens] object of a login or sign-up body as a thunk finds it
    at run time: each of the two properties is a string, as
    [AuthTokens] declares it, or is missing. *)
Module TokenPair.
Record t := {
  accessToken : option string;
  refreshToken : option string;
}.
End TokenPair.

(** ** features/auth/data/auth.repository.ts *)

Module AuthRepository.
Section WithClient.
Variable env : ProcessEnv.
Variable net : Network.
(** A response body that is handed on without being read, at the type
    the call site declares for it: [ApiResponse<AuthTokens>],
    [ApiResponse<User>].  The body of a login or a sign-up, which the
    thunks do read, is handed on as it is. *)
Variable asAuthTokens : Body.t -> AuthTokens.t.
Variable asUser : Body.t -> User.t.
(** The request body [{ refreshToken }] as it is sent. *)
Variable refreshBody : string -> string.

(** [if (!response.success || !response.data) throw new Error(message);
    return response.data] *)
Definition unwrap {A} (read : Body.t -> A) (message : string)
    (response : ApiResponse.t) : M A :=
  match ApiResponse.data response with
  | Some body =>
      if negb (ApiResponse.success response) then throw (ThrownError message)
      else ret (read body)
  | None => throw (ThrownError message)
  end.

(** Request bodies are opaque to the client; [credentials] and [data]
    are the bodies as sent. *)
Definition login (credentials : string) : M Body.t :=
  let* response := post env net "/auth/login" (Some credentials) None in
  unwrap (fun body => body) "Login failed" response.

Definition signUp (data : string) : M Body.t :=
  let* response := post env net "/auth/signup" (Some data) None in
  unwrap (fun body => body) "Sign up failed" response.

Definition logout : M unit :=
  let* _ := post env net "/auth/logout" None None in
  ret tt.

Definition refreshToken (refreshToken : string) : M AuthTokens.t :=
  let* response := post env net "/auth/refresh" (Some (refreshBody refreshToken)) None in
  unwrap asAuthTokens "Token refresh failed" response.

Definition getCurrentUser : M User.t :=
  let* response := get env net "/auth/me" None in
  unwrap asUser "Failed to get current user" response.

End WithClient.
End AuthRepository.

(** ** features/auth/presentation/auth.slice.ts *)

(** How a thunk settles: [fulfilled] with its return value, or
    [rejected] with the value given to [rejectWithValue].  The thunks
    run on the state of the client; their calls of the logger do not
    touch it and are left out, as in the client. *)
Inductive Settled (A : Type) :=
| fulfilled (payload : A)
| rejected (value : string).
Arguments fulfilled {A} payload.
Arguments rejected {A} value.

(** [error instanceof Error ? error.message : fallback] *)
Definition messageOr (fallback : string) (error : Thrown) : string :=
  match error with
  | ThrownAxios error => AxiosError.message error
  | ThrownError message => message
  | ThrownApi _ => fallback
  end.

Module AuthThunks.
Section WithClient.
Variable env : ProcessEnv.
Variable net : Network.
(** [response.tokens] of a body: [None] when the body has no [tokens]
    object, and then [response.tokens.accessToken] throws a [TypeError]
    whose message is [tokensTypeError]. *)
Variable readTokens : Body.t -> option TokenPair.t.
Variable tokensTypeError : string.
Variable asUser : Body.t -> User.t.

(** [apiClient.setAccessToken(response.tokens.accessToken);
    apiClient.setRefreshToken(response.tokens.refreshToken)].  The
    first read throws when [response.tokens] is missing; a token that
    is missing from [tokens] is stored as [undefined], which the client
    reads like [null]. *)
Definition storeTokens (response : Body.t) : M unit :=
  match readTokens response with
  | None => throw (ThrownError tokensTypeError)
  | Some tokens =>
      let* _ :=
        match TokenPair.accessToken tokens with
        | Some token => setAccessToken token
        | None => modify (fun w => set_tokens None (refreshToken (apiClient w)) w)
        end in
      match TokenPair.refreshToken tokens with
      | Some token => setRefreshToken token
      | None => modify (fun w => set_tokens (accessToken (apiClient w)) None w)
      end
  end.

Definition login (credentials : string) : M (Settled Body.t) :=
  try_catch
    (let* response := AuthRepository.login env net credentials in
     let* _ := storeTokens response in
     ret (fulfilled response))
    (fun error => ret (rejected (messageOr "Login failed" error))).

Definition signUp (data : string) : M (Settled Body.t) :=
  try_catch
    (let* response := AuthRepository.signUp env net data in
     let* _ := storeTokens response in
     ret (fulfilled response))
    (fun error => ret (rejected (messageOr "Sign up failed" error))).

Definition logout : M (Settled unit) :=
  try_catch
    (let* _ := AuthRepository.logout env net in
     let* _ := clearTokens in
     ret (fulfilled tt))
    (fun error => ret (rejected (messageOr "Logout failed" error))).

Definition getCurrentUser : M (Settled User.t) :=
  try_catch
    (let* user := AuthRepository.getCurrentUser env net asUser in
     ret (fulfilled user))
    (fun error => ret (rejected (messageOr "Failed to get user" error))).

End WithClient.
End AuthThunks.

Module AuthState.
Record t := {
  user : option User.t;
  accessToken : option string;
  refreshToken : option string;
  isAuthenticated : bool;
  isLoading : bool;
  error : option string;
}.
End AuthState.




(** ** Further concrete inputs *)

(** The refresh endpoint answers 200 with an empty access token. *)
Definition net_refresh_empty : Network :=
  {| transport := fun _ _ => unauthorized;
     refresh_endpoint := fun _ _ _ =>
       Fulfilled 200 (Some (json_body None None (Some ""))) |}.

(** Per-call options [{ headers: { 'X-Request-Id': '42', accept:
    'text/csv' } }]: a header of their own and, in lower case, an
    [Accept] that replaces the default. *)
Definition request_id : AxiosRequestConfig.t :=
  {| AxiosRequestConfig.headers :=
       AxiosHeaders.from [("X-Request-Id", "42"); ("accept", "text/csv")] |}.

(** The variables of a build: [EXPO_PUBLIC_ENV], [NODE_ENV] and the
    Sentry DSN. *)
Definition vars_of (env node dsn : option string) : BuildVars :=
  {| EXPO_PUBLIC_ENV := env; NODE_ENV := node;
     EXPO_PUBLIC_API_URL_STAGING := None; EXPO_PUBLIC_API_URL_PROD := None;
     EXPO_PUBLIC_SENTRY_DSN := dsn |}.

Definition vars_staging : BuildVars :=
  vars_of (Some "staging") None (Some "https://key@sentry.example/1").

Definition vars_production : BuildVars :=
  vars_of None (Some "production") (Some "https://key@sentry.example/1").

(** An error as axios raises it for an unreachable server. *)
Definition boom : JsError.t :=
  {| JsError.message := "Network Error"; JsError.stack := None |}.

(** The properties of an [AppError], as an [Error] subclass of a
    feature may carry them. *)
Definition quota_exceeded : AppError.t :=
  {| AppError.code := "QUOTA";
     AppError.message := "Quota exceeded";
     AppError.userMessage := "You have used up your quota.";
     AppError.recoverable := false;
     AppError.context := None |}.

(** A stand-in for [JSON.stringify]. *)
Definition no_json (_ : LogContext) : string := "{}".

Definition vars_dev : BuildVars := vars_of None (Some "development") None.


(** * Properties *)

(** ** The tenant table and the loader *)

Section TenantFacts.
Variable env : ProcessEnv.

Lemma tenantConfigs_default :
  tenantConfigs env !! "default" = Some (tenant_default env).
Proof. reflexivity. Qed.

(** The table has exactly its four entries. *)
Lemma tenantConfigs_lookup_Some k cfg :
  tenantConfigs env !! k = Some cfg ->
  (k = "default" /\ cfg = tenant_default env) \/
  (k = "tenant-1" /\ cfg = tenant_1) \/
  (k = "tenant-2" /\ cfg = tenant_2) \/
  (k = "tenant-3" /\ cfg = tenant_3).
Proof.
  unfold tenantConfigs. cbn [list_to_map foldr fst snd uncurry].
  rewrite !lookup_insert_Some, lookup_empty. intuition congruence.
Qed.

Lemma tenantConfigs_lookup_None k :
  k ∉ tenant_ids -> tenantConfigs env !! k = None.
Proof.
  intros H. unfold tenantConfigs. apply not_elem_of_list_to_map_1.
  exact H.
Qed.

Lemma tenantConfigs_lookup_id k :
  k ∈ tenant_ids -> exists cfg, tenantConfigs env !! k = Some cfg /\ id cfg = k.
Proof.
  unfold tenant_ids. rewrite !elem_of_cons, elem_of_nil.
  intros [->|[->|[->|[->|[]]]]]; eexists; split; reflexivity.
Qed.

Lemma id_of_table_entry k cfg :
  tenantConfigs env !! k = Some cfg -> id cfg = k.
Proof.
  intros H. apply tenantConfigs_lookup_Some in H.
  destruct H as [[-> ->]|[[-> ->]|[[-> ->]|[-> ->]]]]; reflexivity.
Qed.

(** *** Reading the table by a key *)

Lemma lookupTenant_own k cfg :
  tenantConfigs env !! k = Some cfg ->
  TenantLoader.lookupTenant env k = Some (Tenant.Entry cfg).
Proof.
  intros H. unfold TenantLoader.lookupTenant, Js.index.
  rewrite lookup_fmap, H. reflexivity.
Qed.

Lemma lookupTenant_other k :
  tenantConfigs env !! k = None ->
  TenantLoader.lookupTenant env k =
  if Js.inherits k then Some (Tenant.Inherited k) else None.
Proof.
  intros H. unfold TenantLoader.lookupTenant, Js.index.
  rewrite lookup_fmap, H. reflexivity.
Qed.

(** No tenant id is the name of a member of [Object.prototype]. *)
Lemma tenant_ids_not_inherited k : k ∈ tenant_ids -> Js.inherits k = false.
Proof.
  unfold tenant_ids. rewrite !elem_of_cons, elem_of_nil.
  intros [->|[->|[->|[->|[]]]]]; reflexivity.
Qed.

(** Without the prototype chain, [tenantConfigs[key]] is the own
    property of that name. *)
Lemma lookupTenant_plain k :
  Js.inherits k = false ->
  TenantLoader.lookupTenant env k = Tenant.Entry <$> tenantConfigs env !! k.
Proof.
  intros H. unfold TenantLoader.lookupTenant, Js.index.
  rewrite lookup_fmap, H. destruct (tenantConfigs env !! k); reflexivity.
Qed.

(** An id that is falsy in JavaScript is neither a key nor an
    inherited name, so the truthiness test of [loadTenant] never hides
    anything the lookup would find. *)
Lemma held_lookup (tenantId : option string) :
  Js.held tenantId ≫= TenantLoader.lookupTenant env
  = tenantId ≫= TenantLoader.lookupTenant env.
Proof.
  destruct tenantId as [i|]; [|reflexivity]. simpl.
  destruct (decide (i = "")) as [->|]; reflexivity.
Qed.

Lemma resolveDefault_plain :
  Js.inherits (TenantLoader.defaultTenantId env) = false ->
  exists cfg,
    TenantLoader.resolveDefault env = Tenant.Entry cfg /\
    tenantConfigs env !! id cfg = Some cfg /\
    id cfg = if bool_decide (TenantLoader.defaultTenantId env ∈ tenant_ids)
             then TenantLoader.defaultTenantId env else "default".
Proof.
  intros Hd. unfold TenantLoader.resolveDefault.
  rewrite (lookupTenant_plain _ Hd).
  destruct (decide (TenantLoader.defaultTenantId env ∈ tenant_ids)) as [Hin|Hout].
  - rewrite (bool_decide_eq_true_2 _ Hin).
    destruct (tenantConfigs_lookup_id _ Hin) as (cfg & Hc & Hid).
    exists cfg. rewrite Hc, Hid. repeat split. exact Hc.
  - rewrite (bool_decide_eq_false_2 _ Hout).
    rewrite (tenantConfigs_lookup_None _ Hout).
    exists (tenant_default env). repeat split.
Qed.

Lemma resolveDefault_from_table :
  Js.inherits (TenantLoader.defaultTenantId env) = false ->
  from_table env (Some (TenantLoader.resolveDefault env)).
Proof.
  intros Hd. destruct (resolveDefault_plain Hd) as (cfg & -> & Hc & _).
  exists (id cfg). exact Hc.
Qed.

Lemma loadTenant_from_table tenantId st :
  Js.inherits (TenantLoader.defaultTenantId env) = false ->
  from_option (fun i => Js.inherits i = false) True tenantId ->
  from_table env (snd (TenantLoader.loadTenant env tenantId st)).
Proof.
  intros Hd Hi. unfold TenantLoader.loadTenant. rewrite held_lookup.
  destruct tenantId as [i|]; cbn [mbind option_bind];
    [|apply (resolveDefault_from_table Hd)].
  cbn [from_option] in Hi. rewrite (lookupTenant_plain _ Hi).
  destruct (tenantConfigs env !! i) as [cfg|] eqn:E; cbn [fmap option_fmap option_map snd].
  - exists i. exact E.
  - apply (resolveDefault_from_table Hd).
Qed.

Lemma getCurrentTenant_from_table st :
  Js.inherits (TenantLoader.defaultTenantId env) = false ->
  from_table env st -> from_table env (snd (TenantLoader.getCurrentTenant env st)).
Proof.
  intros Hd. destruct st as [tenant|]; simpl; [tauto|].
  intros _. apply (resolveDefault_from_table Hd).
Qed.

(** C9.  [getCurrentTenant] returns the current tenant and leaves it
    current, so a second call returns the same value and changes
    nothing; the default is resolved only when nothing was current. *)
Theorem getCurrentTenant_idempotent (st : TenantLoader.state) :
  exists cfg,
    TenantLoader.getCurrentTenant env st = (cfg, Some cfg) /\
    TenantLoader.getCurrentTenant env (Some cfg) = (cfg, Some cfg) /\
    cfg = match st with
          | Some current => current
          | None => TenantLoader.resolveDefault env
          end.
Proof.
  destruct st as [current|]; simpl; eexists; repeat split.
Qed.

(** C10.  In every entry of the table all flag keys and all permission
    keys are present, so [isFeatureEnabled] and [hasPermission] return
    the stored value and never the [false] fallback; for
    [maxFileUploadSize] that value is a non-zero number, not a
    boolean. *)
Theorem table_flags_returned_verbatim (k : string) (cfg : TenantConfig) :
  tenantConfigs env !! k = Some cfg ->
  Forall (fun feature => exists v,
            featureFlags cfg !! feature = Some v /\ v <> Js.VUndefined /\
            TenantLoader.isFeatureEnabled env feature (Some (Tenant.Entry cfg))
              = (Some v, Some (Tenant.Entry cfg)))
         feature_keys /\
  Forall (fun permission => exists v,
            permissions cfg !! permission = Some v /\ v <> Js.VUndefined /\
            TenantLoader.hasPermission env permission (Some (Tenant.Entry cfg))
              = (Some v, Some (Tenant.Entry cfg)))
         permission_keys /\
  exists n : Z,
    TenantLoader.isFeatureEnabled env "maxFileUploadSize" (Some (Tenant.Entry cfg))
      = (Some (Js.VNum n), Some (Tenant.Entry cfg)) /\
    Js.truthy (Js.VNum n) = true.
Proof.
  intros H. apply tenantConfigs_lookup_Some in H.
  destruct H as [[-> ->]|[[-> ->]|[[-> ->]|[-> ->]]]];
    (split; [|split]);
    try (repeat constructor; eexists; (split; [reflexivity|]);
         (split; [discriminate|reflexivity]));
    eexists; split; reflexivity.
Qed.

End TenantFacts.

(** For [tenant-3], [isFeatureEnabled('maxFileUploadSize')] is the
    number 1048576. *)
Lemma table_flags_returned_verbatim_tenant_3 :
  tenantConfigs env_unset !! "tenant-3" = Some tenant_3 /\
  exists n : Z,
    TenantLoader.isFeatureEnabled env_unset "maxFileUploadSize" (Some (Tenant.Entry tenant_3))
      = (Some (Js.VNum n), Some (Tenant.Entry tenant_3)) /\
    Js.truthy (Js.VNum n) = true.
Proof.
  split; [reflexivity|].
  apply (table_flags_returned_verbatim env_unset "tenant-3" tenant_3).
  reflexivity.
Defined.

(** ** Headers *)

Lemma headers_lookup_insert (h : AxiosHeaders.t) k v : <[k := v]> h !! k = Some v.
Proof. apply (lookup_insert_eq (AxiosHeaders.names h)). Qed.

Lemma headers_lookup_insert_ne (h : AxiosHeaders.t) k k' v :
  toLowerCase k <> toLowerCase k' -> <[k := v]> h !! k' = h !! k'.
Proof. intros H. apply (lookup_insert_ne (AxiosHeaders.names h)). exact H. Qed.

Lemma headers_lookup_unset (h : AxiosHeaders.t) k : AxiosHeaders.unset k h !! k = None.
Proof. apply (lookup_delete_eq (AxiosHeaders.names h)). Qed.

Lemma headers_lookup_unset_ne (h : AxiosHeaders.t) k k' :
  toLowerCase k <> toLowerCase k' -> AxiosHeaders.unset k h !! k' = h !! k'.
Proof. intros H. apply (lookup_delete_ne (AxiosHeaders.names h)). exact H. Qed.

(** Two spellings of one name read the same header. *)
Lemma headers_lookup_caseless (h : AxiosHeaders.t) k k' :
  toLowerCase k = toLowerCase k' -> h !! k = h !! k'.
Proof.
  intros H. unfold lookup, AxiosHeaders.header_lookup, AxiosHeaders.get. rewrite H. reflexivity.
Qed.

Lemma headers_lookup_concat (a b : AxiosHeaders.t) k :
  AxiosHeaders.concat a b !! k =
  match b !! k with
  | Some v => Some v
  | None => a !! k
  end.
Proof.
  unfold lookup at 1 2 3, AxiosHeaders.header_lookup, AxiosHeaders.get, AxiosHeaders.concat.
  cbn [AxiosHeaders.names]. rewrite lookup_union.
  destruct (AxiosHeaders.names b !! toLowerCase k), (AxiosHeaders.names a !! toLowerCase k); reflexivity.
Qed.

Lemma headers_lookup_empty k : (∅ : AxiosHeaders.t) !! k = None.
Proof. apply (lookup_empty (M := gmap string)). Qed.

Lemma assign_header_lookup k v c :
  RequestConfig.headers (RequestConfig.assign_header k v c) !! k = v.
Proof.
  destruct v; [apply headers_lookup_insert|apply headers_lookup_unset].
Qed.

Lemma assign_header_lookup_ne k k' v c :
  toLowerCase k <> toLowerCase k' ->
  RequestConfig.headers (RequestConfig.assign_header k v c) !! k'
  = RequestConfig.headers c !! k'.
Proof.
  intros H. destruct v; [apply headers_lookup_insert_ne|apply headers_lookup_unset_ne];
    exact H.
Qed.

(** ** The client *)

Section ClientFacts.
Variable env : ProcessEnv.
Variable net : Network.

(** Assigning a header changes nothing else in a request. *)
Lemma assign_header_rest k v c :
  RequestConfig.baseURL (RequestConfig.assign_header k v c) = RequestConfig.baseURL c /\
  RequestConfig.timeout (RequestConfig.assign_header k v c) = RequestConfig.timeout c /\
  RequestConfig.method (RequestConfig.assign_header k v c) = RequestConfig.method c /\
  RequestConfig.url (RequestConfig.assign_header k v c) = RequestConfig.url c /\
  RequestConfig.data (RequestConfig.assign_header k v c) = RequestConfig.data c /\
  RequestConfig._retry (RequestConfig.assign_header k v c) = RequestConfig._retry c.
Proof. destruct v; repeat split; reflexivity. Qed.

Lemma assign_header_retry k v c :
  RequestConfig._retry (RequestConfig.assign_header k v c) = RequestConfig._retry c.
Proof. apply assign_header_rest. Qed.

Lemma currentTenantConfig_run w :
  currentTenantConfig env w = Some (Ok (tenantNow env w), resolved env w).
Proof.
  unfold currentTenantConfig, tenantNow, resolved.
  destruct (getTenantConfig env (loader w)); reflexivity.
Qed.

Lemma resolved_idem w : resolved env (resolved env w) = resolved env w.
Proof. unfold resolved. destruct w as [[?|] ? ?]; reflexivity. Qed.

Lemma tenantNow_resolved w : tenantNow env (resolved env w) = tenantNow env w.
Proof. unfold tenantNow, resolved. destruct w as [[?|] ? ?]; reflexivity. Qed.

Lemma requestInterceptor_run config w :
  requestInterceptor env config w =
  Some (Ok (RequestConfig.assign_header "X-Tenant-ID" (Tenant.id (tenantNow env w))
             match Js.held (accessToken (apiClient w)) with
             | Some tok => RequestConfig.set_header "Authorization" ("Bearer " ++ tok) config
             | None => config
             end),
        resolved env w).
Proof.
  unfold requestInterceptor, bind, gets, ret. rewrite currentTenantConfig_run. reflexivity.
Qed.

Lemma held_idem o : Js.held (Js.held o) = Js.held o.
Proof.
  destruct o as [s|]; [|reflexivity]. simpl.
  destruct (decide (s = "")) as [E|E]; [reflexivity|].
  simpl. destruct (decide (s = "")); [contradiction|reflexivity].
Qed.

Lemma held_Some o s : Js.held o = Some s -> Js.held (Some s) = Some s.
Proof. intros H. rewrite <- H. apply held_idem. Qed.

(** [refreshAccessToken] never rejects and never touches the tokens. *)
Lemma refreshAccessToken_run w :
  refreshAccessToken env net w = Some (Ok (refreshOutcome env net w), afterRefresh env w).
Proof.
  unfold refreshAccessToken, refreshOutcome, afterRefresh, bind, gets, try_catch.
  destruct (Js.held (refreshToken (apiClient w))) as [token|]; [|reflexivity].
  rewrite currentTenantConfig_run. unfold refreshUrl.
  destruct (Tenant.api (tenantNow env w)) as [api|]; [|reflexivity].
  cbn [fmap option_fmap option_map]. unfold axios_post, refreshedToken.
  change (trace (resolved env w)) with (trace w).
  destruct (refresh_endpoint net (trace w) (baseUrl api ++ "/auth/refresh") token)
    as [st [body|]|m c r]; reflexivity.
Qed.

Lemma refreshOutcome_held w : Js.held (refreshOutcome env net w) = refreshOutcome env net w.
Proof.
  unfold refreshOutcome.
  destruct (Js.held (refreshToken (apiClient w))); [|reflexivity].
  destruct (refreshUrl env w); [|reflexivity].
  unfold refreshedToken. destruct (refresh_endpoint _ _ _ _) as [st [body|]|m c r];
    try reflexivity. apply held_idem.
Qed.

Lemma afterRefresh_tokens w :
  accessToken (apiClient (afterRefresh env w)) = accessToken (apiClient w) /\
  refreshToken (apiClient (afterRefresh env w)) = refreshToken (apiClient w) /\
  client (apiClient (afterRefresh env w)) = client (apiClient w).
Proof.
  unfold afterRefresh. destruct (Js.held _); [destruct (refreshUrl env w)|];
    repeat split; reflexivity.
Qed.

Lemma responseRejected_run self error w :
  responseRejected env net self error w =
  if bool_decide (AxiosError.status error = Some 401%Z)
     && negb (RequestConfig._retry (AxiosError.config error))
  then match refreshOutcome env net w with
       | Some newToken =>
           self (reissued newToken (AxiosError.config error)) (withNewToken env newToken w)
       | None => Some (Throw (ThrownApi (apiError error)), afterRefresh env w)
       end
  else Some (Throw (ThrownApi (apiError error)), w).
Proof.
  unfold responseRejected.
  destruct (bool_decide _ && negb _); [|reflexivity].
  unfold bind at 1. unfold try_catch, bind at 1. rewrite refreshAccessToken_run.
  rewrite refreshOutcome_held.
  destruct (refreshOutcome env net w) as [newToken|]; reflexivity.
Qed.

Lemma rejection_config m c config r :
  AxiosError.config (rejection m c config r) = config.
Proof. reflexivity. Qed.

Lemma rejection_status m c config r :
  AxiosError.status (rejection m c config r) = AxiosResponse.status <$> r.
Proof. reflexivity. Qed.

Lemma pipeline_run self config w :
  pipeline env net self config w =
  match transport net (trace w) (outbound env w config) with
  | Fulfilled status data =>
      Some (Ok {| AxiosResponse.status := status; AxiosResponse.data := data |},
            record (Sent (outbound env w config)) (resolved env w))
  | Rejected message code response =>
      responseRejected env net self
        (rejection message code (outbound env w config) response)
        (record (Sent (outbound env w config)) (resolved env w))
  end.
Proof.
  unfold pipeline. unfold bind at 1. rewrite requestInterceptor_run.
  fold (outbound env w config). unfold bind, dispatchRequest.
  change (trace (resolved env w)) with (trace w).
  destruct (transport net (trace w) (outbound env w config)); reflexivity.
Qed.

Lemma outbound_retry w config :
  RequestConfig._retry (outbound env w config) = RequestConfig._retry config.
Proof.
  unfold outbound. rewrite assign_header_retry. destruct (Js.held _); reflexivity.
Qed.

(** A request already marked [_retry] never calls back into the
    instance. *)
Lemma pipeline_retried self self' config w :
  RequestConfig._retry config = true ->
  pipeline env net self config w = pipeline env net self' config w.
Proof.
  intros Hr. rewrite !pipeline_run.
  destruct (transport net (trace w) (outbound env w config)); [reflexivity|].
  rewrite !responseRejected_run. rewrite ?rejection_config. rewrite outbound_retry, Hr.
  rewrite andb_false_r. reflexivity.
Qed.

Lemma pipeline_ext self self' config w :
  (forall c v, RequestConfig._retry c = true -> self c v = self' c v) ->
  pipeline env net self config w = pipeline env net self' config w.
Proof.
  intros Hs. rewrite !pipeline_run.
  destruct (transport net (trace w) (outbound env w config)); [reflexivity|].
  rewrite !responseRejected_run.
  destruct (bool_decide _ && negb _); [|reflexivity].
  destruct (refreshOutcome env net _); [|reflexivity]. apply Hs. reflexivity.
Qed.

(** Two levels are enough: more depth changes nothing. *)
Lemma client_request_depth n config w :
  client_request env net (S (S n)) config w = client_request env net max_depth config w.
Proof.
  unfold max_depth. cbn [client_request]. apply pipeline_ext.
  intros c v Hc. destruct n; [reflexivity|]. cbn [client_request].
  apply pipeline_retried. exact Hc.
Qed.

Lemma pipeline_retried_total self config w :
  RequestConfig._retry config = true ->
  exists r w', pipeline env net self config w = Some (r, w').
Proof.
  intros Hr. rewrite pipeline_run.
  destruct (transport net (trace w) (outbound env w config)); [eauto|].
  rewrite responseRejected_run. rewrite ?rejection_config. rewrite outbound_retry, Hr.
  rewrite andb_false_r. eauto.
Qed.

(** The instance always settles: a call at [max_depth] returns. *)
Lemma client_request_total config w :
  exists r w', client_request env net max_depth config w = Some (r, w').
Proof.
  unfold max_depth. cbn [client_request]. rewrite pipeline_run.
  destruct (transport net (trace w) (outbound env w config)); [eauto|].
  rewrite responseRejected_run.
  destruct (bool_decide _ && negb _); [|eauto].
  destruct (refreshOutcome env net _); [|eauto].
  apply pipeline_retried_total. reflexivity.
Qed.

(** *** What a run leaves in the state *)

Lemma loader_afterRefresh w :
  loader (afterRefresh env w) = loader (resolved env w) \/
  loader (afterRefresh env w) = loader w.
Proof.
  unfold afterRefresh.
  destruct (Js.held _); [destruct (refreshUrl env w); left|right]; reflexivity.
Qed.

Lemma tenantNow_same v w :
  loader v = loader (resolved env w) \/ loader v = loader w -> tenantNow env v = tenantNow env w.
Proof.
  unfold tenantNow. intros [->| ->]; [|reflexivity]. apply (tenantNow_resolved w).
Qed.

Lemma refreshUrl_same v w :
  loader v = loader (resolved env w) \/ loader v = loader w ->
  refreshUrl env v = refreshUrl env w.
Proof. intros H. unfold refreshUrl. rewrite (tenantNow_same v w H). reflexivity. Qed.

Lemma trace_afterRefresh w :
  trace (afterRefresh env w) = (trace w ++ refreshEvents env w)%list.
Proof.
  unfold afterRefresh, refreshEvents.
  destruct (Js.held _); [destruct (refreshUrl env w)|]; simpl;
    try reflexivity; symmetry; apply app_nil_r.
Qed.

Lemma refreshEvents_follow_up w w' config v :
  Forall (follow_up env w w' config) (refreshEvents env v).
Proof.
  unfold refreshEvents.
  destruct (Js.held _); [destruct (refreshUrl env v)|];
    repeat first [exact I|constructor].
Qed.

(** The case of a 401 answered by a successful refresh, in full. *)
Lemma refresh_retry_run config w rt url msg code body st b newToken :
  RequestConfig._retry config = false ->
  Js.held (refreshToken (apiClient w)) = Some rt ->
  refreshUrl env w = Some url ->
  transport net (trace w) (outbound env w config)
    = Rejected msg code (Some {| AxiosResponse.status := 401;
                                 AxiosResponse.data := body |}) ->
  refresh_endpoint net (trace w ++ [Sent (outbound env w config)])%list url rt
    = Fulfilled st (Some b) ->
  Js.held (Body.accessToken b) = Some newToken ->
  let c1 := outbound env w config in
  let w2 := set_tokens (Some newToken) (refreshToken (apiClient w))
              (record (Refreshed url rt) (record (Sent c1) (resolved env w))) in
  let c2 := RequestConfig.assign_header "X-Tenant-ID" (Tenant.id (tenantNow env w))
              (RequestConfig.set_header "Authorization" ("Bearer " ++ newToken)
                 (reissued newToken c1)) in
  client_request env net max_depth config w =
  Some (match transport net (trace w2) c2 with
        | Fulfilled status data =>
            Ok {| AxiosResponse.status := status; AxiosResponse.data := data |}
        | Rejected m c r => Throw (ThrownApi (apiError (rejection m c c2 r)))
        end,
        record (Sent c2) w2).
Proof.
  intros Hr Hrt Hurl H401 Href Htok c1 w2 c2.
  unfold max_depth. cbn [client_request]. rewrite pipeline_run, H401. fold c1.
  rewrite responseRejected_run, !rejection_config, rejection_status. cbn [fmap option_fmap option_map AxiosResponse.status].
  unfold c1 at 1. rewrite outbound_retry, Hr.
  rewrite bool_decide_eq_true_2 by reflexivity. cbn [andb negb].
  set (w1 := record (Sent c1) (resolved env w)).
  assert (Hu : refreshUrl env w1 = Some url).
  { rewrite (refreshUrl_same w1 w); [exact Hurl|left; reflexivity]. }
  assert (Ho : refreshOutcome env net w1 = Some newToken).
  { unfold refreshOutcome. change (refreshToken (apiClient w1)) with (refreshToken (apiClient w)).
    rewrite Hrt, Hu. change (trace w1) with (trace w ++ [Sent c1])%list.
    unfold c1. rewrite Href. exact Htok. }
  rewrite Ho.
  assert (Hw : withNewToken env newToken w1 = w2).
  { unfold withNewToken, afterRefresh.
    change (refreshToken (apiClient w1)) with (refreshToken (apiClient w)).
    rewrite Hrt, Hu. unfold w1 at 1 2. unfold w2.
    unfold set_tokens, record, resolved, set_loader; simpl.
    destruct w as [[?|] ? ?]; reflexivity. }
  rewrite Hw. rewrite pipeline_run.
  assert (Hc : outbound env w2 (reissued newToken c1) = c2).
  { unfold outbound. change (accessToken (apiClient w2)) with (Some newToken).
    rewrite (held_Some _ _ Htok). unfold c2. f_equal. f_equal.
    apply tenantNow_same. left. unfold w2. simpl.
    destruct w as [[?|] ? ?]; reflexivity. }
  rewrite Hc.
  assert (Hres : resolved env w2 = w2).
  { unfold w2, resolved, set_tokens, record, set_loader; simpl.
    destruct w as [[?|] ? ?]; reflexivity. }
  rewrite Hres.
  destruct (transport net (trace w2) c2) as [status data|m c r]; [reflexivity|].
  rewrite responseRejected_run, rejection_config.
  replace (RequestConfig._retry c2) with true
    by (unfold c2; rewrite assign_header_retry; reflexivity).
  rewrite andb_false_r. reflexivity.
Qed.

(** When the refresh yields no token (none held, endpoint failing, or
    no token in its answer) the call keeps both stored tokens. *)
Lemma no_new_token_keeps_credentials config w :
  refreshOutcome env net (record (Sent (outbound env w config)) (resolved env w)) = None ->
  exists r w',
    client_request env net max_depth config w = Some (r, w') /\
    accessToken (apiClient w') = accessToken (apiClient w) /\
    refreshToken (apiClient w') = refreshToken (apiClient w).
Proof.
  intros Ho. unfold max_depth. cbn [client_request]. rewrite pipeline_run.
  destruct (transport net (trace w) (outbound env w config)) as [status data|m c r].
  { eexists _, _. repeat split. }
  rewrite responseRejected_run, Ho.
  destruct (bool_decide _ && negb _); eexists _, _; (split; [reflexivity|]).
  - split; apply (afterRefresh_tokens (record (Sent (outbound env w config)) (resolved env w))).
  - split; reflexivity.
Qed.

(** *** The headers and the target of an outbound request *)

Lemma outbound_tenant_header w config :
  RequestConfig.headers (outbound env w config) !! "X-Tenant-ID" = Tenant.id (tenantNow env w).
Proof. unfold outbound. apply assign_header_lookup. Qed.

Lemma outbound_authorization w config :
  RequestConfig.headers (outbound env w config) !! "Authorization" =
  match Js.held (accessToken (apiClient w)) with
  | Some tok => Some ("Bearer " ++ tok)
  | None => RequestConfig.headers config !! "Authorization"
  end.
Proof.
  unfold outbound. rewrite assign_header_lookup_ne by discriminate.
  destruct (Js.held _); [apply headers_lookup_insert|reflexivity].
Qed.

Lemma outbound_target w config :
  RequestConfig.baseURL (outbound env w config) = RequestConfig.baseURL config /\
  RequestConfig.timeout (outbound env w config) = RequestConfig.timeout config /\
  RequestConfig.method (outbound env w config) = RequestConfig.method config /\
  RequestConfig.url (outbound env w config) = RequestConfig.url config /\
  RequestConfig.data (outbound env w config) = RequestConfig.data config.
Proof.
  unfold outbound.
  destruct (assign_header_rest "X-Tenant-ID" (Tenant.id (tenantNow env w))
              match Js.held (accessToken (apiClient w)) with
              | Some tok => RequestConfig.set_header "Authorization" ("Bearer " ++ tok) config
              | None => config
              end) as (-> & -> & -> & -> & -> & _).
  destruct (Js.held _); repeat split; reflexivity.
Qed.

Lemma client_request_summary config w :
  RequestConfig._retry config = false ->
  exists r w' rest,
    client_request env net max_depth config w = Some (r, w') /\
    trace w' = (trace w ++ Sent (outbound env w config) :: rest)%list /\
    client (apiClient w') = client (apiClient w) /\
    (forall e, r = Throw e -> exists a, e = ThrownApi a) /\
    Forall (follow_up env w w' config) rest.
Proof.
  intros Hr. unfold max_depth. cbn [client_request]. rewrite pipeline_run.
  set (c1 := outbound env w config). set (w1 := record (Sent c1) (resolved env w)).
  destruct (transport net (trace w) c1) as [status data|m c r].
  { eexists _, w1, []. repeat split; [discriminate|constructor]. }
  rewrite responseRejected_run, !rejection_config.
  destruct (bool_decide _ && negb _).
  2:{ eexists _, w1, []. repeat split; [|constructor]. intros e [= <-]. eauto. }
  destruct (refreshOutcome env net w1) as [newToken|] eqn:Ho.
  2:{ eexists _, (afterRefresh env w1), _. split; [reflexivity|].
      split; [rewrite trace_afterRefresh; unfold w1; simpl; rewrite <- app_assoc; reflexivity|].
      split; [exact (proj2 (proj2 (afterRefresh_tokens w1)))|].
      split; [intros e [= <-]; eauto|].
      apply refreshEvents_follow_up. }
  assert (Hh : Js.held (Some newToken) = Some newToken).
  { rewrite <- Ho. apply refreshOutcome_held. }
  rewrite pipeline_run.
  set (w2 := withNewToken env newToken w1). set (c2 := outbound env w2 (reissued newToken c1)).
  assert (Ht : trace w2 = (trace w ++ Sent c1 :: refreshEvents env w1)%list).
  { unfold w2, withNewToken. cbn [set_tokens trace]. rewrite trace_afterRefresh.
    unfold w1; simpl. rewrite <- app_assoc. reflexivity. }
  assert (Hf : forall w', accessToken (apiClient w') = Some newToken ->
               follow_up env w w' config (Sent c2)).
  { intros w' Hw'. unfold follow_up, c2. rewrite outbound_tenant_header, outbound_authorization.
    destruct (outbound_target w2 (reissued newToken c1)) as (-> & -> & _).
    destruct (outbound_target w config) as (Hb & Htm & _).
    split; [|split; [exact Hb|split; [exact Htm|]]].
    - rewrite (tenantNow_same w2 w); [reflexivity|].
      unfold w2, withNewToken. cbn [set_tokens loader].
      destruct (loader_afterRefresh w1) as [->| ->]; left; unfold w1; simpl;
        destruct w as [[?|] ? ?]; reflexivity.
    - exists newToken. rewrite Hw', Hh. split; [reflexivity|].
      change (accessToken (apiClient w2)) with (Some newToken). rewrite Hh. reflexivity. }
  assert (Hcl : client (apiClient w2) = client (apiClient w)).
  { unfold w2, withNewToken. cbn [set_tokens apiClient client]. exact (proj2 (proj2 (afterRefresh_tokens w1))). }
  assert (Hrest : forall w', accessToken (apiClient w') = Some newToken ->
            Forall (follow_up env w w' config) (refreshEvents env w1 ++ [Sent c2])%list).
  { intros w' Hw'. apply Forall_app. split; [apply refreshEvents_follow_up|].
    constructor; [apply Hf, Hw'|constructor]. }
  destruct (transport net (trace w2) c2) as [status data|m' c' r'].
  { eexists _, (record (Sent c2) (resolved env w2)), _. split; [reflexivity|].
    split; [cbn [record resolved set_loader trace]; rewrite Ht, <- app_assoc; reflexivity|].
    split; [exact Hcl|]. split; [discriminate|]. apply Hrest. reflexivity. }
  rewrite responseRejected_run, !rejection_config.
  replace (RequestConfig._retry c2) with true
    by (unfold c2; rewrite outbound_retry; reflexivity).
  rewrite andb_false_r.
  eexists _, (record (Sent c2) (resolved env w2)), _. split; [reflexivity|].
  split; [cbn [record resolved set_loader trace]; rewrite Ht, <- app_assoc; reflexivity|].
  split; [exact Hcl|]. split; [intros e [= <-]; eauto|]. apply Hrest. reflexivity.
Qed.

(** *** The verb methods *)

Lemma verb_run method url data config w :
  verb env net method url data config w =
  match client_request env net max_depth
          (AxiosInstance.mergeConfig (client (apiClient w)) method url data config) w with
  | Some (Ok response, w') => Some (Ok (successResult response), w')
  | Some (Throw e, w') => Some (Throw (ThrownApi (handleError e)), w')
  | None => None
  end.
Proof.
  unfold verb, try_catch, client_call, bind, gets, ret.
  destruct (client_request _ _ _ _ _) as [[[response|e] w']|]; reflexivity.
Qed.

Lemma client_call_run method url data config w :
  client_call env net method url data config w =
  client_request env net max_depth
    (AxiosInstance.mergeConfig (client (apiClient w)) method url data config) w.
Proof. reflexivity. Qed.

(** Every verb call settles, and its first attempt is the merged
    request as the interceptor decorates it. *)
Lemma verb_summary method url data config w :
  let merged := AxiosInstance.mergeConfig (client (apiClient w)) method url data config in
  exists result w' rest,
    verb env net method url data config w = Some (result, w') /\
    trace w' = (trace w ++ Sent (outbound env w merged) :: rest)%list /\
    client (apiClient w') = client (apiClient w) /\
    Forall (follow_up env w w' merged) rest /\
    ((exists response, result = Ok (successResult response)) \/
     result = Throw (ThrownApi unknownError)).
Proof.
  intros merged. rewrite verb_run. fold merged.
  destruct (client_request_summary merged w) as (r & w' & rest & -> & Ht & Hc & He & Hf);
    [reflexivity|].
  destruct r as [response|e].
  - exists (Ok (successResult response)), w', rest. eauto 10.
  - destruct (He e eq_refl) as [a ->].
    exists (Throw (ThrownApi unknownError)), w', rest. eauto 10.
Qed.

(** *** Worlds that a program can reach *)

Lemma run_op_client w op : client (apiClient (run_op env net w op)) = client (apiClient w).
Proof.
  destruct op as [i| |t|t| |method url data config]; try reflexivity.
  cbn [run_op]. unfold settle.
  destruct (verb_summary method url data config w) as (r & w' & rest & -> & _ & Hc & _).
  exact Hc.
Qed.

Lemma run_ops_client ops w :
  client (apiClient (run_ops env net ops w)) = client (apiClient w).
Proof.
  unfold run_ops. revert w. induction ops as [|op ops IH]; intros w; [reflexivity|].
  cbn [foldl]. rewrite IH. apply run_op_client.
Qed.

(** The module loads when the tenant that is current then is a
    descriptor; the client is built from it and the loader is left
    resolved. *)
Lemma boot_Some l w0 :
  boot env l = Some w0 ->
  exists bound,
    fst (getTenantConfig env l) = Tenant.Entry bound /\
    w0 = {| loader := snd (getTenantConfig env l);
            apiClient := newClient (api bound);
            trace := [] |}.
Proof.
  unfold boot, constructor. destruct (getTenantConfig env l) as [tenant l'].
  cbn [fst snd]. destruct tenant as [bound|k]; [|discriminate].
  intros [= <-]. exists bound. split; reflexivity.
Qed.

Lemma boot_None l :
  boot env l = None <-> exists k, fst (getTenantConfig env l) = Tenant.Inherited k.
Proof.
  unfold boot, constructor. destruct (getTenantConfig env l) as [tenant l'].
  cbn [fst snd]. destruct tenant as [bound|k]; cbn.
  - split; [discriminate|]. intros [k H]. discriminate H.
  - split; [eauto|reflexivity].
Qed.

Lemma boot_client l w0 :
  boot env l = Some w0 ->
  exists bound,
    fst (getTenantConfig env l) = Tenant.Entry bound /\
    client (apiClient w0) = client (newClient (api bound)).
Proof.
  intros H. destruct (boot_Some l w0 H) as (bound & Ha & ->).
  exists bound. split; [exact Ha|reflexivity].
Qed.

(** *** The refresh-and-retry policy *)

Ltac case_reply :=
  match goal with
  | |- context [match ?reply with Fulfilled _ _ => _ | Rejected _ _ _ => _ end] =>
      destruct reply
  end.

Lemma first_attempt config w c1 w1 :
  requestInterceptor env config w = Some (Ok c1, w1) ->
  c1 = outbound env w config /\ w1 = resolved env w.
Proof. rewrite requestInterceptor_run. intros [= <- <-]. split; reflexivity. Qed.

(** C1.  A request answered 401 while a refresh token is held and the
    refresh yields a token: the instance makes exactly two attempts and
    one refresh, whatever the answer to the second attempt; that answer
    is the result of the call, a failure being rejected as it is. *)
Theorem refresh_success_exactly_two_attempts
    method url data config w c1 w1 rt refresh msg code body st b newToken :
  requestInterceptor env
    (AxiosInstance.mergeConfig (client (apiClient w)) method url data config) w
    = Some (Ok c1, w1) ->
  transport net (trace w1) c1
    = Rejected msg code (Some {| AxiosResponse.status := 401;
                                 AxiosResponse.data := body |}) ->
  Js.held (refreshToken (apiClient w)) = Some rt ->
  refreshUrl env w = Some refresh ->
  refresh_endpoint net (trace w1 ++ [Sent c1])%list refresh rt
    = Fulfilled st (Some b) ->
  Js.held (Body.accessToken b) = Some newToken ->
  exists c2 w',
    trace w' = (trace w ++ [Sent c1; Refreshed refresh rt; Sent c2])%list /\
    client_call env net method url data config w =
      Some (match transport net (trace w ++ [Sent c1; Refreshed refresh rt])%list c2 with
            | Fulfilled status data =>
                Ok {| AxiosResponse.status := status; AxiosResponse.data := data |}
            | Rejected m c r => Throw (ThrownApi (apiError (rejection m c c2 r)))
            end, w') /\
    verb env net method url data config w =
      Some (match transport net (trace w ++ [Sent c1; Refreshed refresh rt])%list c2 with
            | Fulfilled status data =>
                Ok {| ApiResponse.data := data; ApiResponse.message := None;
                      ApiResponse.success := true; ApiResponse.errors := None |}
            | Rejected m c r =>
                Throw (ThrownApi (handleError (ThrownApi (apiError (rejection m c c2 r)))))
            end, w').
Proof.
  intros Hi H401 Hrt Hurl Href Htok.
  apply first_attempt in Hi. destruct Hi as [-> ->].
  change (trace (resolved env w)) with (trace w) in H401, Href.
  pose proof (refresh_retry_run
                (AxiosInstance.mergeConfig (client (apiClient w)) method url data config)
                w rt refresh msg code body st b newToken eq_refl Hrt Hurl H401 Href Htok) as Hrun.
  cbv zeta in Hrun.
  match type of Hrun with
  | _ = Some (match transport net ?t ?c with _ => _ end, ?v) =>
      assert (Ht : t = (trace w ++ [Sent (outbound env w (AxiosInstance.mergeConfig (client (apiClient w)) method url data config)); Refreshed refresh rt])%list)
        by (cbn [trace set_tokens record resolved set_loader];
            rewrite <- app_assoc; reflexivity);
      rewrite Ht in Hrun; exists c, v
  end.
  split; [cbn [trace set_tokens record resolved set_loader];
          rewrite <- !app_assoc; reflexivity|].
  split; [rewrite client_call_run; exact Hrun|].
  rewrite verb_run, Hrun.
  case_reply; reflexivity.
Qed.

(** C4.  When the refresh triggered by a 401 yields a token, only the
    stored access token is replaced, and the original request is
    reissued with [Authorization: Bearer <new token>]. *)
Theorem refresh_replaces_access_token_only
    method url data config w c1 w1 rt refresh msg code body st b newToken :
  requestInterceptor env
    (AxiosInstance.mergeConfig (client (apiClient w)) method url data config) w
    = Some (Ok c1, w1) ->
  transport net (trace w1) c1
    = Rejected msg code (Some {| AxiosResponse.status := 401;
                                 AxiosResponse.data := body |}) ->
  Js.held (refreshToken (apiClient w)) = Some rt ->
  refreshUrl env w = Some refresh ->
  refresh_endpoint net (trace w1 ++ [Sent c1])%list refresh rt
    = Fulfilled st (Some b) ->
  Js.held (Body.accessToken b) = Some newToken ->
  exists result c2 w',
    verb env net method url data config w = Some (result, w') /\
    last (trace w') = Some (Sent c2) /\
    RequestConfig.headers c2 !! "Authorization" = Some ("Bearer " ++ newToken) /\
    RequestConfig.method c2 = method /\
    RequestConfig.url c2 = url /\
    RequestConfig.data c2 = data /\
    accessToken (apiClient w') = Some newToken /\
    refreshToken (apiClient w') = refreshToken (apiClient w).
Proof.
  intros Hi H401 Hrt Hurl Href Htok.
  apply first_attempt in Hi. destruct Hi as [-> ->].
  change (trace (resolved env w)) with (trace w) in H401, Href.
  pose proof (refresh_retry_run
                (AxiosInstance.mergeConfig (client (apiClient w)) method url data config)
                w rt refresh msg code body st b newToken eq_refl Hrt Hurl H401 Href Htok) as Hrun.
  cbv zeta in Hrun. rewrite verb_run, Hrun.
  match type of Hrun with
  | _ = Some (match transport net ?t ?c with _ => _ end, ?v) =>
      exists (match transport net t c with
              | Fulfilled status data =>
                  Ok (successResult {| AxiosResponse.status := status;
                                       AxiosResponse.data := data |})
              | Rejected m c' r =>
                  Throw (ThrownApi (handleError (ThrownApi (apiError (rejection m c' c r)))))
              end), c, v
  end.
  split; [case_reply; reflexivity|].
  split; [cbn [trace record]; apply last_snoc|].
  split; [rewrite assign_header_lookup_ne by discriminate;
          apply headers_lookup_insert|].
  destruct (assign_header_rest "X-Tenant-ID" (Tenant.id (tenantNow env w))
              (RequestConfig.set_header "Authorization" ("Bearer " ++ newToken)
                 (reissued newToken
                    (outbound env w
                       (AxiosInstance.mergeConfig (client (apiClient w)) method url data config)))))
    as (_ & _ & -> & -> & -> & _).
  cbn [RequestConfig.set_header reissued RequestConfig.set_retry
       RequestConfig.method RequestConfig.url RequestConfig.data].
  destruct (outbound_target w
              (AxiosInstance.mergeConfig (client (apiClient w)) method url data config))
    as (_ & _ & -> & -> & ->).
  repeat split; reflexivity.
Qed.

(** *** The outbound headers and the bound endpoint *)

(** The headers of a merged request: those of the per-call options
    and, for a name they leave out, the default of the instance. *)
Lemma merged_header inst method url data config k :
  RequestConfig.headers (AxiosInstance.mergeConfig inst method url data config) !! k =
  match config ≫= (fun o => AxiosRequestConfig.headers o !! k) with
  | Some v => Some v
  | None => AxiosInstance.headers inst !! k
  end.
Proof.
  cbn [AxiosInstance.mergeConfig RequestConfig.headers].
  rewrite headers_lookup_concat.
  destruct config as [o|]; cbn [from_option mbind option_bind]; [reflexivity|].
  rewrite headers_lookup_empty. reflexivity.
Qed.

Lemma merged_authorization l w0 ops method url data config :
  boot env l = Some w0 ->
  let w := run_ops env net ops w0 in
  RequestConfig.headers
    (AxiosInstance.mergeConfig (client (apiClient w)) method url data config)
    !! "Authorization"
  = config ≫= (fun o => AxiosRequestConfig.headers o !! "Authorization").
Proof.
  intros Hb w. rewrite merged_header. unfold w. rewrite run_ops_client.
  destruct (boot_client l w0 Hb) as (bound & _ & ->).
  destruct (config ≫= _); reflexivity.
Qed.

(** C5, as the code has it.  While an access token is held (a
    non-empty string) every request carries [Authorization: Bearer
    <token>]: the first attempt with the token stored when the call
    starts, a reissued request with the token stored when it ends.
    While none is held the interceptor leaves the header alone, so it
    is what the per-call options supplied, absent if they supplied
    none. *)
Theorem authorization_header_follows_token
    (l : TenantLoader.state) (w0 : World) (ops : list Op) method url data config :
  boot env l = Some w0 ->
  let w := run_ops env net ops w0 in
  exists result w' first rest,
    verb env net method url data config w = Some (result, w') /\
    trace w' = (trace w ++ Sent first :: rest)%list /\
    RequestConfig.headers first !! "Authorization" =
      match Js.held (accessToken (apiClient w)) with
      | Some tok => Some ("Bearer " ++ tok)
      | None => config ≫= (fun o => AxiosRequestConfig.headers o !! "Authorization")
      end /\
    Forall (fun e =>
              match e with
              | Sent c =>
                  exists tok,
                    Js.held (accessToken (apiClient w')) = Some tok /\
                    RequestConfig.headers c !! "Authorization" = Some ("Bearer " ++ tok)
              | Refreshed _ _ => True
              end) rest.
Proof.
  intros Hb w.
  destruct (verb_summary method url data config w)
    as (result & w' & rest & Hv & Ht & _ & Hf & _).
  eexists result, w', _, rest. split; [exact Hv|]. split; [exact Ht|].
  split.
  - rewrite outbound_authorization.
    destruct (Js.held (accessToken (apiClient w))); [reflexivity|].
    apply (merged_authorization l w0 ops _ _ _ _ Hb).
  - eapply Forall_impl; [exact Hf|].
    intros [c|u t]; [|trivial]. intros (_ & _ & _ & H). exact H.
Qed.


End ClientFacts.
(** ** Concrete runs *)

(** With nothing set in the environment the client module loads, bound
    to the default tenant. *)
Lemma boot_unset : boot env_unset None = Some started.
Proof. reflexivity. Qed.

(** After login, [get('/users/me')] is answered 401, the refresh issues
    ["A2"] and the second attempt succeeds: two attempts, one refresh. *)
Lemma refresh_success_exactly_two_attempts_scenario :
  exists c1 c2 w',
    trace w' = [Sent c1; Refreshed "https://api-dev.example.com/auth/refresh" "R1"; Sent c2] /\
    get env_unset net_refresh_ok "/users/me" None logged_in =
      Some (Ok {| ApiResponse.data := Some (json_body None None None);
                  ApiResponse.message := None;
                  ApiResponse.success := true;
                  ApiResponse.errors := None |}, w').
Proof.
  edestruct (refresh_success_exactly_two_attempts env_unset net_refresh_ok
               "get" "/users/me" None None logged_in
               (outbound env_unset logged_in
                  (AxiosInstance.mergeConfig (client (apiClient logged_in))
                     "get" "/users/me" None None))
               (resolved env_unset logged_in) "R1"
               "https://api-dev.example.com/auth/refresh")
    as (c2 & w' & Ht & _ & Hv);
    [reflexivity|reflexivity|reflexivity|reflexivity|reflexivity|reflexivity|].
  eexists _, c2, w'. split; [exact Ht|exact Hv].
Defined.

(** The same run: the reissued request carries [Bearer A2], the stored
    access token is ["A2"] and the refresh token is still ["R1"]. *)
Lemma refresh_replaces_access_token_only_scenario :
  exists result c2 w',
    get env_unset net_refresh_ok "/users/me" None logged_in = Some (result, w') /\
    last (trace w') = Some (Sent c2) /\
    RequestConfig.headers c2 !! "Authorization" = Some "Bearer A2" /\
    RequestConfig.url c2 = "/users/me" /\
    accessToken (apiClient w') = Some "A2" /\
    refreshToken (apiClient w') = Some "R1".
Proof.
  edestruct (refresh_replaces_access_token_only env_unset net_refresh_ok
               "get" "/users/me" None None logged_in
               (outbound env_unset logged_in
                  (AxiosInstance.mergeConfig (client (apiClient logged_in))
                     "get" "/users/me" None None))
               (resolved env_unset logged_in) "R1"
               "https://api-dev.example.com/auth/refresh")
    as (result & c2 & w' & Hv & Hl & Ha & _ & Hu & _ & Hat & Hrt);
    [reflexivity|reflexivity|reflexivity|reflexivity|reflexivity|reflexivity|].
  exists result, c2, w'. repeat split; assumption.
Defined.

(** C5 as stated fails: with no access token held, a request whose
    per-call options carry an [Authorization] header goes out with that
    header. *)
Lemma authorization_present_without_token :
  ~ (forall (l : TenantLoader.state) (w0 : World) (ops : list Op)
            (config : option AxiosRequestConfig.t) result w' first rest,
       boot env_unset l = Some w0 ->
       let w := run_ops env_unset net_ok ops w0 in
       Js.held (accessToken (apiClient w)) = None ->
       get env_unset net_ok "/x" config w = Some (result, w') ->
       trace w' = (trace w ++ Sent first :: rest)%list ->
       RequestConfig.headers first !! "Authorization" = None).
Proof.
  intros H.
  specialize (H None started [] (Some basic_auth) _ _ _ [] boot_unset eq_refl eq_refl eq_refl).
  discriminate H.
Qed.

(** After login a request carries [Bearer A1], whatever the per-call
    options say. *)
Lemma authorization_header_follows_token_logged_in :
  exists result w' first rest,
    get env_unset net_ok "/x" (Some basic_auth) logged_in = Some (result, w') /\
    trace w' = Sent first :: rest /\
    RequestConfig.headers first !! "Authorization" = Some "Bearer A1".
Proof.
  destruct (authorization_header_follows_token env_unset net_ok None started
              [OpSetAccessToken "A1"; OpSetRefreshToken "R1"]
              "get" "/x" None (Some basic_auth) boot_unset)
    as (result & w' & first & rest & Hv & Ht & Ha & _).
  exists result, w', first, rest. split; [exact Hv|]. split; [exact Ht|exact Ha].
Defined.

(** C2 at a failing input.  The call is answered 401 and the refresh
    fails (or no refresh token is held): the call fails, both tokens are
    still stored, and the next call carries [Bearer A1]. *)
Theorem refresh_failure_keeps_credentials :
  (exists w' first rest result w'',
     get env_unset net_refresh_down "/users/me" None logged_in
       = Some (Throw (ThrownApi unknownError), w') /\
     accessToken (apiClient w') = Some "A1" /\
     refreshToken (apiClient w') = Some "R1" /\
     get env_unset net_refresh_down "/users/me" None w' = Some (result, w'') /\
     trace w'' = (trace w' ++ Sent first :: rest)%list /\
     RequestConfig.headers first !! "Authorization" = Some "Bearer A1") /\
  (exists w' first rest result w'',
     get env_unset net_refresh_down "/users/me" None access_only
       = Some (Throw (ThrownApi unknownError), w') /\
     accessToken (apiClient w') = Some "A1" /\
     get env_unset net_refresh_down "/users/me" None w' = Some (result, w'') /\
     trace w'' = (trace w' ++ Sent first :: rest)%list /\
     RequestConfig.headers first !! "Authorization" = Some "Bearer A1").
Proof.
  split.
  - eexists _, _, _, _, _. split; [reflexivity|].
    split; [reflexivity|]. split; [reflexivity|].
    split; [reflexivity|]. split; [reflexivity|]. reflexivity.
  - eexists _, _, _, _, _. split; [reflexivity|].
    split; [reflexivity|].
    split; [reflexivity|]. split; [reflexivity|]. reflexivity.
Qed.

(** C3 at a failing input.  The refresh fails with a network error; the
    instance rejects with the [ApiError] of the original 401 and the
    caller receives the unknown-error object: nothing describes the
    refresh failure. *)
Theorem refresh_failure_surfaces_original_401 :
  exists w',
    client_call env_unset net_refresh_down "get" "/users/me" None None logged_in
      = Some (Throw (ThrownApi
                {| ApiError.message := "Request failed with status code 401";
                   ApiError.code := Some "ERR_BAD_REQUEST";
                   ApiError.status := Some 401%Z;
                   ApiError.errors := Some ["Request failed with status code 401"] |}),
              w') /\
    get env_unset net_refresh_down "/users/me" None logged_in
      = Some (Throw (ThrownApi unknownError), w') /\
    trace w' =
      [Sent (outbound env_unset logged_in
               (AxiosInstance.mergeConfig (client (apiClient logged_in))
                  "get" "/users/me" None None));
       Refreshed "https://api-dev.example.com/auth/refresh" "R1"].
Proof.
  exists (settle (get env_unset net_refresh_down "/users/me" None) logged_in).
  split; [|split]; vm_compute; reflexivity.
Qed.

(** C6 at a failing input.  The server answers 500 with a message and an
    error list; the instance rejects with an [ApiError] that has the
    status and the list, but [handleError] does not recognise that plain
    object and the caller receives only ["Unknown error occurred"]. *)
Theorem server_error_details_lost :
  exists w',
    client_call env_unset net_server_error "get" "/reports" None None logged_in
      = Some (Throw (ThrownApi
                {| ApiError.message := "Request failed with status code 500";
                   ApiError.code := Some "ERR_BAD_RESPONSE";
                   ApiError.status := Some 500%Z;
                   ApiError.errors := Some ["quota"] |}),
              w') /\
    get env_unset net_server_error "/reports" None logged_in
      = Some (Throw (ThrownApi
                {| ApiError.message := "Unknown error occurred";
                   ApiError.code := None;
                   ApiError.status := None;
                   ApiError.errors := None |}),
              w').
Proof.
  exists (settle (get env_unset net_server_error "/reports" None) logged_in).
  split; vm_compute; reflexivity.
Qed.


(** C8 at a failing input.  The process is configured with the default
    tenant id ['constructor'], which is not in the table.  The lookup
    finds the member of [Object.prototype] of that name, so
    [loadTenant()] makes it current instead of the ['default']
    descriptor, and so does [loadTenant('constructor')] in any process;
    it has no id and no [api], and the client module then fails to
    load. *)
Theorem loadTenant_inherited_name_becomes_current :
  tenantConfigs env_constructor !! "constructor" = None /\
  TenantLoader.loadTenant env_constructor None None
    = (Tenant.Inherited "constructor", Some (Tenant.Inherited "constructor")) /\
  TenantLoader.loadTenant env_unset (Some "constructor") None
    = (Tenant.Inherited "constructor", Some (Tenant.Inherited "constructor")) /\
  Tenant.id (Tenant.Inherited "constructor") = None /\
  Tenant.api (Tenant.Inherited "constructor") = None /\
  boot env_constructor None = None.
Proof. repeat split. Qed.

(** * Further properties *)

(** ** The client, case by case *)

Section ClientShape.
Variable env : ProcessEnv.
Variable net : Network.

(** The three ways a call can unfold: one attempt; one attempt and a
    refresh that yields nothing; one attempt, a refresh and the reissued
    request. *)
Lemma client_request_shape config w :
  RequestConfig._retry config = false ->
  exists r w',
    client_request env net max_depth config w = Some (r, w') /\
    loader w' = Some (tenantNow env w) /\
    let c1 := outbound env w config in
    (trace w' = (trace w ++ [Sent c1])%list /\ apiClient w' = apiClient w) \/
    (exists rt refresh,
       Js.held (refreshToken (apiClient w)) = Some rt /\
       refreshUrl env w = Some refresh /\
       trace w' = (trace w ++ [Sent c1; Refreshed refresh rt])%list /\
       apiClient w' = apiClient w) \/
    (exists rt refresh tok c2,
       Js.held (refreshToken (apiClient w)) = Some rt /\
       refreshUrl env w = Some refresh /\
       Js.held (Some tok) = Some tok /\
       RequestConfig._retry c2 = true /\
       trace w' = (trace w ++ [Sent c1; Refreshed refresh rt; Sent c2])%list /\
       apiClient w' = {| client := client (apiClient w);
                         accessToken := Some tok;
                         refreshToken := refreshToken (apiClient w) |}).
Proof.
  intros Hr. unfold max_depth. cbn [client_request]. rewrite pipeline_run.
  set (c1 := outbound env w config). set (w1 := record (Sent c1) (resolved env w)).
  assert (Hl1 : loader w1 = Some (tenantNow env w)).
  { unfold w1, resolved, tenantNow, getTenantConfig; simpl.
    destruct (loader w); reflexivity. }
  assert (Ha1 : apiClient w1 = apiClient w) by reflexivity.
  assert (Ht1 : trace w1 = (trace w ++ [Sent c1])%list) by reflexivity.
  destruct (transport net (trace w) c1) as [status data|m c r].
  { eexists _, w1. split; [reflexivity|]. split; [exact Hl1|]. left. split; assumption. }
  rewrite responseRejected_run, !rejection_config.
  destruct (bool_decide _ && negb _).
  2:{ eexists _, w1. split; [reflexivity|]. split; [exact Hl1|]. left. split; assumption. }
  assert (Hu : refreshUrl env w1 = refreshUrl env w).
  { apply refreshUrl_same. left. reflexivity. }
  assert (Hres1 : resolved env w1 = w1).
  { unfold w1, resolved, set_loader, record, getTenantConfig; simpl.
    destruct w as [[?|] ? ?]; reflexivity. }
  destruct (refreshOutcome env net w1) as [tok|] eqn:Ho.
  2:{ eexists _, (afterRefresh env w1). split; [reflexivity|].
      unfold afterRefresh. change (refreshToken (apiClient w1)) with (refreshToken (apiClient w)).
      rewrite Hu, Hres1.
      destruct (Js.held (refreshToken (apiClient w))) as [rt|] eqn:Hrt;
        [destruct (refreshUrl env w) as [refresh|] eqn:Hurl|].
      - split; [exact Hl1|]. right. left. exists rt, refresh.
        split; [reflexivity|]. split; [reflexivity|]. split; [|reflexivity].
        cbn [record trace]. rewrite Ht1, <- app_assoc. reflexivity.
      - split; [exact Hl1|]. left. split; assumption.
      - split; [exact Hl1|]. left. split; assumption. }
  assert (Hh : Js.held (Some tok) = Some tok).
  { rewrite <- Ho. apply refreshOutcome_held. }
  unfold refreshOutcome in Ho.
  change (refreshToken (apiClient w1)) with (refreshToken (apiClient w)) in Ho.
  rewrite Hu in Ho.
  destruct (Js.held (refreshToken (apiClient w))) as [rt|] eqn:Hrt; [|discriminate Ho].
  destruct (refreshUrl env w) as [refresh|] eqn:Hurl; [|discriminate Ho].
  set (w2 := withNewToken env tok w1).
  assert (Hw2 : w2 = set_tokens (Some tok) (refreshToken (apiClient w))
                       (record (Refreshed refresh rt) w1)).
  { unfold w2, withNewToken, afterRefresh.
    change (refreshToken (apiClient w1)) with (refreshToken (apiClient w)).
    rewrite Hrt, Hres1, Hu. reflexivity. }
  rewrite pipeline_run.
  set (c2 := outbound env w2 (reissued tok c1)).
  assert (Hc2 : RequestConfig._retry c2 = true)
    by (unfold c2; rewrite outbound_retry; reflexivity).
  assert (Hres2 : resolved env w2 = w2).
  { rewrite Hw2. unfold w1, resolved, set_loader, set_tokens, record, getTenantConfig; simpl.
    destruct w as [[?|] ? ?]; reflexivity. }
  assert (Hfin : exists r, match transport net (trace w2) c2 with
      | Fulfilled status data =>
          Some (Ok {| AxiosResponse.status := status; AxiosResponse.data := data |},
                record (Sent c2) (resolved env w2))
      | Rejected message code response =>
          responseRejected env net (fun _ => out_of_depth)
            (rejection message code c2 response) (record (Sent c2) (resolved env w2))
      end = Some (r, record (Sent c2) w2)).
  { rewrite Hres2. destruct (transport net (trace w2) c2); [eauto|].
    rewrite responseRejected_run, rejection_config, Hc2, andb_false_r. eauto. }
  destruct Hfin as [r' ->]. exists r', (record (Sent c2) w2).
  split; [reflexivity|]. split; [rewrite Hw2; exact Hl1|].
  right. right. exists rt, refresh, tok, c2. split; [reflexivity|].
  split; [reflexivity|]. split; [exact Hh|].
  split; [exact Hc2|]. rewrite Hw2. split; [|reflexivity].
  cbn [record set_tokens trace]. rewrite Ht1, <- !app_assoc. reflexivity.
Qed.

(** X1.  A failure that is not a 401 (another status, or no response at
    all as for a network error or a timeout) is final after one attempt:
    no refresh is tried, the client state is untouched, and the instance
    rejects with the [ApiError] of that failure. *)
Theorem other_failure_single_attempt
    method url data config w c1 w1 msg code response :
  requestInterceptor env
    (AxiosInstance.mergeConfig (client (apiClient w)) method url data config) w
    = Some (Ok c1, w1) ->
  transport net (trace w1) c1 = Rejected msg code response ->
  AxiosResponse.status <$> response <> Some 401%Z ->
  exists w',
    client_call env net method url data config w =
      Some (Throw (ThrownApi
              {| ApiError.message := msg;
                 ApiError.code := code;
                 ApiError.status := AxiosResponse.status <$> response;
                 ApiError.errors :=
                   Some (default [msg]
                           (r ← response; d ← AxiosResponse.data r; Body.errors d)) |}),
            w') /\
    verb env net method url data config w = Some (Throw (ThrownApi unknownError), w') /\
    trace w' = (trace w ++ [Sent c1])%list /\
    apiClient w' = apiClient w.
Proof.
  intros Hi Hrej Hst. apply first_attempt in Hi. destruct Hi as [-> ->].
  change (trace (resolved env w)) with (trace w) in Hrej.
  eexists. rewrite verb_run, client_call_run.
  unfold max_depth. cbn [client_request]. rewrite pipeline_run, Hrej.
  rewrite responseRejected_run, rejection_status.
  rewrite bool_decide_eq_false_2 by exact Hst. cbn [andb].
  repeat split.
Qed.

(** X2.  With no refresh token held (none, or the empty string), a 401
    is final after one attempt: no request goes to the refresh endpoint
    and the caller gets the failure of the original request. *)
Theorem unauthorized_without_refresh_token
    method url data config w c1 w1 msg code body :
  requestInterceptor env
    (AxiosInstance.mergeConfig (client (apiClient w)) method url data config) w
    = Some (Ok c1, w1) ->
  transport net (trace w1) c1
    = Rejected msg code (Some {| AxiosResponse.status := 401;
                                 AxiosResponse.data := body |}) ->
  Js.held (refreshToken (apiClient w)) = None ->
  exists w',
    client_call env net method url data config w =
      Some (Throw (ThrownApi
              (apiError (rejection msg code c1
                 (Some {| AxiosResponse.status := 401; AxiosResponse.data := body |})))),
            w') /\
    trace w' = (trace w ++ [Sent c1])%list /\
    apiClient w' = apiClient w.
Proof.
  intros Hi Hrej Hrt. apply first_attempt in Hi. destruct Hi as [-> ->].
  change (trace (resolved env w)) with (trace w) in Hrej.
  eexists. rewrite client_call_run.
  unfold max_depth. cbn [client_request]. rewrite pipeline_run, Hrej.
  rewrite responseRejected_run.
  unfold refreshOutcome, afterRefresh.
  cbn [record resolved set_loader apiClient].
  rewrite Hrt. destruct (bool_decide _ && negb _); repeat split.
Qed.

(** X3.  A refresh that yields no usable token (the endpoint fails, its
    answer has no body, or the [accessToken] in it is missing or empty)
    ends the call: one attempt and one refresh request, no reissue, both
    stored tokens as they were, and the failure of the original request
    as the rejection. *)
Theorem unusable_refresh_answer_is_final
    method url data config w c1 w1 rt refresh msg code body :
  requestInterceptor env
    (AxiosInstance.mergeConfig (client (apiClient w)) method url data config) w
    = Some (Ok c1, w1) ->
  transport net (trace w1) c1
    = Rejected msg code (Some {| AxiosResponse.status := 401;
                                 AxiosResponse.data := body |}) ->
  Js.held (refreshToken (apiClient w)) = Some rt ->
  refreshUrl env w = Some refresh ->
  match refresh_endpoint net (trace w1 ++ [Sent c1])%list refresh rt with
  | Fulfilled _ (Some answer) => Js.held (Body.accessToken answer) = None
  | Fulfilled _ None => True
  | Rejected _ _ _ => True
  end ->
  exists w',
    client_call env net method url data config w =
      Some (Throw (ThrownApi
              (apiError (rejection msg code c1
                 (Some {| AxiosResponse.status := 401; AxiosResponse.data := body |})))),
            w') /\
    trace w' = (trace w ++ [Sent c1; Refreshed refresh rt])%list /\
    apiClient w' = apiClient w.
Proof.
  intros Hi Hrej Hrt Hurl Href. apply first_attempt in Hi. destruct Hi as [-> ->].
  change (trace (resolved env w)) with (trace w) in Hrej, Href.
  set (c1 := outbound env w
               (AxiosInstance.mergeConfig (client (apiClient w)) method url data config)) in *.
  set (w1 := record (Sent c1) (resolved env w)).
  assert (Hu : refreshUrl env w1 = Some refresh).
  { rewrite (refreshUrl_same env w1 w); [exact Hurl|left; reflexivity]. }
  assert (Ho : refreshOutcome env net w1 = None).
  { unfold refreshOutcome. change (refreshToken (apiClient w1)) with (refreshToken (apiClient w)).
    rewrite Hrt, Hu. change (trace w1) with (trace w ++ [Sent c1])%list.
    unfold refreshedToken.
    destruct (refresh_endpoint net _ _ rt) as [st [answer|]|m c r]; auto. }
  eexists. rewrite client_call_run.
  unfold max_depth. cbn [client_request]. rewrite pipeline_run. fold c1. rewrite Hrej.
  rewrite responseRejected_run, rejection_config, rejection_status. fold w1. rewrite Ho.
  unfold c1 at 1. rewrite outbound_retry.
  cbn [AxiosInstance.mergeConfig RequestConfig._retry fmap option_fmap option_map AxiosResponse.status].
  rewrite bool_decide_eq_true_2 by reflexivity. cbn [andb negb].
  split; [reflexivity|].
  unfold afterRefresh. change (refreshToken (apiClient w1)) with (refreshToken (apiClient w)).
  rewrite Hrt, Hu. split; [|reflexivity].
  unfold w1. cbn [record resolved set_loader trace]. rewrite <- app_assoc. reflexivity.
Qed.

Lemma verb_shape method url data config w :
  let merged := AxiosInstance.mergeConfig (client (apiClient w)) method url data config in
  let c1 := outbound env w merged in
  exists result w',
    verb env net method url data config w = Some (result, w') /\
    loader w' = Some (tenantNow env w) /\
    ((trace w' = (trace w ++ [Sent c1])%list /\ apiClient w' = apiClient w) \/
     (exists rt refresh,
        Js.held (refreshToken (apiClient w)) = Some rt /\
        refreshUrl env w = Some refresh /\
        trace w' = (trace w ++ [Sent c1; Refreshed refresh rt])%list /\
        apiClient w' = apiClient w) \/
     (exists rt refresh tok c2,
        Js.held (refreshToken (apiClient w)) = Some rt /\
        refreshUrl env w = Some refresh /\
        Js.held (Some tok) = Some tok /\
        RequestConfig._retry c2 = true /\
        trace w' = (trace w ++ [Sent c1; Refreshed refresh rt; Sent c2])%list /\
        apiClient w' = {| client := client (apiClient w);
                          accessToken := Some tok;
                          refreshToken := refreshToken (apiClient w) |})).
Proof.
  intros merged c1. rewrite verb_run. fold merged.
  destruct (client_request_shape merged w eq_refl) as (r & w' & -> & Hl & Hs).
  destruct r; eexists _, w'; (split; [reflexivity|]); (split; [exact Hl|exact Hs]).
Qed.

(** X4.  No call clears or replaces the refresh token, and no call
    clears the access token: after a call the access token is the one
    stored before, or a non-empty token obtained from a refresh request
    made during the call. *)
Theorem calls_keep_refresh_token method url data config w :
  exists result w' new,
    verb env net method url data config w = Some (result, w') /\
    trace w' = (trace w ++ new)%list /\
    client (apiClient w') = client (apiClient w) /\
    refreshToken (apiClient w') = refreshToken (apiClient w) /\
    (accessToken (apiClient w') = accessToken (apiClient w) \/
     exists tok u rt,
       accessToken (apiClient w') = Some tok /\ tok <> "" /\ In (Refreshed u rt) new).
Proof.
  destruct (verb_shape method url data config w) as (result & w' & Hv & _ & Hs).
  exists result, w'.
  destruct Hs as [[Ht Ha]|[(rt & refresh & _ & _ & Ht & Ha)
                            |(rt & refresh & tok & c2 & _ & _ & Hh & _ & Ht & Ha)]];
    eexists; (split; [exact Hv|]); (split; [exact Ht|]); rewrite Ha.
  - repeat split. left. reflexivity.
  - repeat split. left. reflexivity.
  - repeat split. right. exists tok, refresh, rt.
    split; [reflexivity|]. split; [|simpl; tauto].
    intros ->. discriminate Hh.
Qed.

Lemma refreshUrl_Some w refresh :
  refreshUrl env w = Some refresh ->
  exists cfg,
    fst (getTenantConfig env (loader w)) = Tenant.Entry cfg /\
    refresh = baseUrl (api cfg) ++ "/auth/refresh".
Proof.
  unfold refreshUrl, tenantNow.
  destruct (fst (getTenantConfig env (loader w))) as [cfg|k]; [|discriminate].
  intros [= <-]. exists cfg. split; reflexivity.
Qed.

(** X5.  The refresh request goes to the endpoint of the tenant that is
    current when the call is made (not to the endpoint the client was
    bound to) and carries the stored refresh token. *)
Theorem refresh_targets_current_tenant method url data config w :
  exists result w' new,
    verb env net method url data config w = Some (result, w') /\
    trace w' = (trace w ++ new)%list /\
    Forall (fun e =>
              match e with
              | Refreshed u t =>
                  (exists cfg,
                     fst (getTenantConfig env (loader w)) = Tenant.Entry cfg /\
                     u = baseUrl (api cfg) ++ "/auth/refresh") /\
                  Js.held (refreshToken (apiClient w)) = Some t
              | Sent _ => True
              end) new.
Proof.
  destruct (verb_shape method url data config w) as (result & w' & Hv & _ & Hs).
  exists result, w'.
  destruct Hs as [[Ht Ha]|[(rt & refresh & Hrt & Hu & Ht & Ha)
                            |(rt & refresh & tok & c2 & Hrt & Hu & _ & _ & Ht & Ha)]];
    eexists; (split; [exact Hv|]); (split; [exact Ht|]);
    repeat (constructor;
            [first [exact I|split; [exact (refreshUrl_Some w refresh Hu)|exact Hrt]]|]);
    constructor.
Qed.

(** X6.  Whatever the server answers, one call makes one or two HTTP
    attempts and at most one refresh request. *)
Theorem at_most_two_attempts_one_refresh method url data config w :
  exists result w' new,
    verb env net method url data config w = Some (result, w') /\
    trace w' = (trace w ++ new)%list /\
    (1 <= length (List.filter is_sent new) <= 2)%nat /\
    (length (List.filter (fun e => negb (is_sent e)) new) <= 1)%nat.
Proof.
  destruct (verb_shape method url data config w) as (result & w' & Hv & _ & Hs).
  exists result, w'.
  destruct Hs as [[Ht Ha]|[(rt & refresh & _ & _ & Ht & Ha)
                            |(rt & refresh & tok & c2 & _ & _ & _ & _ & Ht & Ha)]];
    eexists; (split; [exact Hv|]); (split; [exact Ht|]); simpl; lia.
Qed.

(** X7.  A verb method settles in one of two ways only: it resolves with
    [success: true], the body of the last response as [data] and
    [message] and [errors] unset, or it throws the plain object
    [{ message: 'Unknown error occurred' }]; it never throws the
    [AxiosError] itself. *)
Theorem verb_outcomes method url data config w :
  exists result w',
    verb env net method url data config w = Some (result, w') /\
    ((exists body,
        result = Ok {| ApiResponse.data := body;
                       ApiResponse.message := None;
                       ApiResponse.success := true;
                       ApiResponse.errors := None |}) \/
     result = Throw (ThrownApi
                {| ApiError.message := "Unknown error occurred";
                   ApiError.code := None;
                   ApiError.status := None;
                   ApiError.errors := None |})).
Proof.
  destruct (verb_summary env net method url data config w)
    as (result & w' & rest & Hv & _ & _ & _ & [[response ->]| ->]).
  - exists (Ok (successResult response)), w'. split; [exact Hv|]. left.
    exists (AxiosResponse.data response). reflexivity.
  - exists (Throw (ThrownApi unknownError)), w'. split; [exact Hv|]. right. reflexivity.
Qed.

Lemma outbound_other_header w config k :
  toLowerCase k <> "authorization" -> toLowerCase k <> "x-tenant-id" ->
  RequestConfig.headers (outbound env w config) !! k = RequestConfig.headers config !! k.
Proof.
  intros Ha Hx. unfold outbound.
  rewrite assign_header_lookup_ne by (intros E; apply Hx; symmetry; exact E).
  destruct (Js.held _); [|reflexivity].
  apply headers_lookup_insert_ne. intros E. apply Ha. symmetry. exact E.
Qed.

(** The defaults the constructor gives the instance. *)
Lemma newClient_header api k :
  AxiosInstance.headers (client (newClient api)) !! k =
  if decide (toLowerCase k = "content-type" \/ toLowerCase k = "accept")
  then Some "application/json" else None.
Proof.
  cbn [newClient client AxiosInstance.headers].
  destruct (decide (toLowerCase k = "content-type")) as [Hc|Hc].
  - rewrite (headers_lookup_caseless _ k "Content-Type") by exact Hc.
    destruct (decide _) as [_|N]; [reflexivity|]. exfalso. apply N. left. exact Hc.
  - rewrite headers_lookup_insert_ne by (intros E; apply Hc; symmetry; exact E).
    destruct (decide (toLowerCase k = "accept")) as [Hac|Hac].
    + rewrite (headers_lookup_caseless _ k "Accept") by exact Hac.
      destruct (decide _) as [_|N]; [reflexivity|]. exfalso. apply N. right. exact Hac.
    + unfold singletonM, AxiosHeaders.header_singleton.
      rewrite (headers_lookup_insert_ne ∅ "Accept" k)
        by (intros E; apply Hac; symmetry; exact E).
      rewrite headers_lookup_empty.
      destruct (decide _) as [[?|?]|_]; [contradiction|contradiction|reflexivity].
Qed.

(** X8.  Apart from [Authorization] and [X-Tenant-ID], which the
    interceptor writes, and [Content-Type], which is left to the
    adapter, the first attempt of a call is handed to the adapter with
    the headers of the per-call options, in whatever case the options
    spell their names, and with [Accept: application/json] where the
    options set no [Accept]. *)
Theorem caller_headers_over_defaults
    (l : TenantLoader.state) (w0 : World) (ops : list Op)
    method url data config (k : string) :
  boot env l = Some w0 ->
  toLowerCase k <> "authorization" ->
  toLowerCase k <> "x-tenant-id" ->
  toLowerCase k <> "content-type" ->
  let w := run_ops env net ops w0 in
  exists result w' first rest,
    verb env net method url data config w = Some (result, w') /\
    trace w' = (trace w ++ Sent first :: rest)%list /\
    RequestConfig.headers first !! k =
      match config ≫= (fun o => AxiosRequestConfig.headers o !! k) with
      | Some v => Some v
      | None => if decide (toLowerCase k = "accept") then Some "application/json" else None
      end.
Proof.
  intros Hb Ha Hx Hc w.
  destruct (verb_summary env net method url data config w)
    as (result & w' & rest & Hv & Ht & _).
  eexists result, w', _, rest. split; [exact Hv|]. split; [exact Ht|].
  rewrite outbound_other_header by assumption.
  rewrite merged_header. destruct (config ≫= _) as [v|]; [reflexivity|].
  unfold w. rewrite run_ops_client.
  destruct (boot_client env l w0 Hb) as (bound & _ & ->).
  rewrite newClient_header.
  destruct (decide (toLowerCase k = "accept")) as [Hac|Hac].
  - destruct (decide _) as [_|N]; [reflexivity|]. exfalso. apply N. right. exact Hac.
  - destruct (decide _) as [[?|?]|_]; [contradiction|contradiction|reflexivity].
Qed.

(** *** Programs that keep to the tenant ids *)

Lemma tenantNow_from_table w :
  Js.inherits (TenantLoader.defaultTenantId env) = false ->
  from_table env (loader w) -> from_table env (Some (tenantNow env w)).
Proof.
  intros Hd. unfold tenantNow, getTenantConfig.
  destruct (loader w) as [tenant|]; simpl; [tauto|].
  intros _. apply (resolveDefault_from_table env Hd).
Qed.

Lemma run_op_from_table w op :
  Js.inherits (TenantLoader.defaultTenantId env) = false ->
  no_inherited_id op ->
  from_table env (loader w) -> from_table env (loader (run_op env net w op)).
Proof.
  intros Hd Hop Hw. destruct op as [i| |t|t| |method url data config]; try exact Hw.
  - apply (loadTenant_from_table env i (loader w) Hd).
    destruct i as [i|]; [exact Hop|exact I].
  - apply (getCurrentTenant_from_table env _ Hd), Hw.
  - cbn [run_op]. unfold settle.
    destruct (verb_shape method url data config w) as (r & w' & -> & -> & _).
    apply (tenantNow_from_table w Hd), Hw.
Qed.

Lemma run_ops_from_table ops w :
  Js.inherits (TenantLoader.defaultTenantId env) = false ->
  Forall (no_inherited_id) ops ->
  from_table env (loader w) -> from_table env (loader (run_ops env net ops w)).
Proof.
  intros Hd. unfold run_ops. revert w.
  induction ops as [|op ops IH]; intros w Hops Hw; [exact Hw|].
  apply Forall_cons_1 in Hops. destruct Hops as [Hop Hops].
  cbn [foldl]. apply (IH _ Hops), (run_op_from_table w op Hd Hop), Hw.
Qed.

Lemma boot_from_table w0 :
  Js.inherits (TenantLoader.defaultTenantId env) = false ->
  boot env None = Some w0 -> from_table env (loader w0).
Proof.
  intros Hd Hb. destruct (boot_Some env None w0 Hb) as (bound & _ & ->).
  apply (resolveDefault_from_table env Hd).
Qed.

(** X9.  In a process whose configured default tenant id is not the name
    of a member of [Object.prototype], and as long as [loadTenant] is
    given no such name, the [X-Tenant-ID] of every attempt is the id of
    an entry of the tenant table. *)
Theorem tenant_header_names_table_entry
    (w0 : World) (ops : list Op) method url data config :
  Js.inherits (TenantLoader.defaultTenantId env) = false ->
  Forall (no_inherited_id) ops ->
  boot env None = Some w0 ->
  let w := run_ops env net ops w0 in
  exists result w' new,
    verb env net method url data config w = Some (result, w') /\
    trace w' = (trace w ++ new)%list /\
    Forall (fun e =>
              match e with
              | Sent c =>
                  exists cfg,
                    RequestConfig.headers c !! "X-Tenant-ID" = Some (id cfg) /\
                    tenantConfigs env !! id cfg = Some cfg
              | Refreshed _ _ => True
              end) new.
Proof.
  intros Hd Hops Hb w.
  assert (Hnow : from_table env (Some (tenantNow env w))).
  { apply (tenantNow_from_table w Hd), (run_ops_from_table ops w0 Hd Hops),
      (boot_from_table w0 Hd Hb). }
  destruct (tenantNow env w) as [cfg|k] eqn:Et; [|contradiction].
  destruct Hnow as [k Hk].
  pose proof (id_of_table_entry env k _ Hk) as Hid. rewrite <- Hid in Hk.
  destruct (verb_summary env net method url data config w)
    as (result & w' & rest & Hv & Ht & _ & Hf & _).
  eexists result, w', _. split; [exact Hv|]. split; [exact Ht|].
  constructor.
  - exists cfg. split; [|exact Hk]. rewrite outbound_tenant_header, Et. reflexivity.
  - eapply Forall_impl; [exact Hf|]. intros [c|u t]; [|trivial].
    intros [Hx _]. exists cfg. split; [|exact Hk]. rewrite Hx, Et. reflexivity.
Qed.

(** X25.  While a member of [Object.prototype] is the current tenant
    (after [loadTenant('constructor')], say), a call still goes out, but
    with no [X-Tenant-ID], and a 401 ends it after one attempt even when
    a refresh token is held: the refresh request is never sent, because
    building its address throws inside [refreshAccessToken]. *)
Theorem inherited_tenant_untagged_no_refresh method url data config w k :
  fst (getTenantConfig env (loader w)) = Tenant.Inherited k ->
  exists result w' first,
    verb env net method url data config w = Some (result, w') /\
    trace w' = (trace w ++ [Sent first])%list /\
    RequestConfig.headers first !! "X-Tenant-ID" = None /\
    apiClient w' = apiClient w.
Proof.
  intros Hk.
  assert (Hu : refreshUrl env w = None).
  { unfold refreshUrl, tenantNow. rewrite Hk. reflexivity. }
  destruct (verb_shape method url data config w) as (result & w' & Hv & _ & Hs).
  destruct Hs as [[Ht Ha]|[(rt & refresh & _ & Hr & _)
                            |(rt & refresh & tok & c2 & _ & Hr & _)]];
    [|rewrite Hu in Hr; discriminate Hr..].
  eexists result, w', _.
  split; [exact Hv|]. split; [exact Ht|]. split; [|exact Ha].
  rewrite outbound_tenant_header. unfold tenantNow. rewrite Hk. reflexivity.
Qed.
End ClientShape.
Section TenantMore.
Variable env : ProcessEnv.

Lemma mkFlags_lookup_None push bio dark offline analytics chat pay maxSize types key :
  ~ In key feature_keys ->
  mkFlags push bio dark offline analytics chat pay maxSize types !! key = None.
Proof.
  intros H. unfold mkFlags. apply not_elem_of_list_to_map_1.
  rewrite list_elem_of_In. exact H.
Qed.

Lemma mkPermissions_lookup_None create del share export invite maxUsers key :
  ~ In key permission_keys ->
  mkPermissions create del share export invite maxUsers !! key = None.
Proof.
  intros H. unfold mkPermissions. apply not_elem_of_list_to_map_1.
  rewrite list_elem_of_In. exact H.
Qed.

(** X10.  For every tenant of the table, a key that is not one of the
    declared flag keys reads as [false] from [isFeatureEnabled], and a
    key that is not one of the declared permission keys reads as [false]
    from [hasPermission], unless the key is the name of a member of
    [Object.prototype]: then that member is what is returned. *)
Theorem unknown_key_reads_false (k : string) (cfg : TenantConfig)
    (feature permission : string) :
  tenantConfigs env !! k = Some cfg ->
  ~ In feature feature_keys ->
  ~ In permission permission_keys ->
  TenantLoader.isFeatureEnabled env feature (Some (Tenant.Entry cfg))
    = (Some (if Js.inherits feature then Js.VInherited feature else Js.VBool false),
       Some (Tenant.Entry cfg)) /\
  TenantLoader.hasPermission env permission (Some (Tenant.Entry cfg))
    = (Some (if Js.inherits permission then Js.VInherited permission else Js.VBool false),
       Some (Tenant.Entry cfg)).
Proof.
  intros H Hf Hp. apply tenantConfigs_lookup_Some in H.
  unfold TenantLoader.isFeatureEnabled, TenantLoader.hasPermission, Js.index.
  cbn [TenantLoader.getCurrentTenant Tenant.featureFlags Tenant.permissions
       mbind option_bind].
  destruct H as [[-> ->]|[[-> ->]|[[-> ->]|[-> ->]]]];
    cbn [featureFlags permissions tenant_default tenant_1 tenant_2 tenant_3];
    rewrite mkFlags_lookup_None, mkPermissions_lookup_None by assumption;
    destruct (Js.inherits feature), (Js.inherits permission); split; reflexivity.
Qed.

End TenantMore.

Lemma unknown_key_reads_false_tenant_2 :
  TenantLoader.isFeatureEnabled env_unset "enableTelemetry" (Some (Tenant.Entry tenant_2))
    = (Some (Js.VBool false), Some (Tenant.Entry tenant_2)) /\
  TenantLoader.hasPermission env_unset "hasOwnProperty" (Some (Tenant.Entry tenant_2))
    = (Some (Js.VInherited "hasOwnProperty"), Some (Tenant.Entry tenant_2)).
Proof.
  apply (unknown_key_reads_false env_unset "tenant-2" tenant_2
           "enableTelemetry" "hasOwnProperty").
  - reflexivity.
  - simpl. intros H. repeat (destruct H as [H|H]; [discriminate H|]). exact H.
  - simpl. intros H. repeat (destruct H as [H|H]; [discriminate H|]). exact H.
Defined.


Lemma tenant_header_names_table_entry_switch :
  exists result w' new,
    get env_unset net_ok "/x" None
      (run_ops env_unset net_ok [OpLoadTenant (Some "tenant-9"); OpLoadTenant (Some "tenant-1")]
         started)
      = Some (result, w') /\
    Forall (fun e =>
              match e with
              | Sent c =>
                  exists cfg,
                    RequestConfig.headers c !! "X-Tenant-ID" = Some (id cfg) /\
                    tenantConfigs env_unset !! id cfg = Some cfg
              | Refreshed _ _ => True
              end) new.
Proof.
  destruct (tenant_header_names_table_entry env_unset net_ok started
              [OpLoadTenant (Some "tenant-9"); OpLoadTenant (Some "tenant-1")]
              "get" "/x" None None)
    as (result & w' & new & Hv & _ & Hf);
    [reflexivity|repeat constructor|reflexivity|].
  exists result, w', new. split; [exact Hv|exact Hf].
Defined.

Lemma other_failure_single_attempt_server_error :
  exists w',
    get env_unset net_server_error "/reports" None logged_in
      = Some (Throw (ThrownApi unknownError), w') /\
    length (trace w') = 1%nat /\
    apiClient w' = apiClient logged_in.
Proof.
  edestruct (other_failure_single_attempt env_unset net_server_error
               "get" "/reports" None None logged_in
               (outbound env_unset logged_in
                  (AxiosInstance.mergeConfig (client (apiClient logged_in))
                     "get" "/reports" None None))
               (resolved env_unset logged_in))
    as (w' & _ & Hv & Ht & Ha);
    [reflexivity|reflexivity|discriminate|].
  exists w'. split; [exact Hv|]. split; [rewrite Ht; reflexivity|exact Ha].
Defined.

Lemma unauthorized_without_refresh_token_access_only :
  exists r w',
    client_call env_unset net_refresh_down "get" "/users/me" None None access_only
      = Some (r, w') /\
    length (trace w') = 1%nat /\
    apiClient w' = apiClient access_only.
Proof.
  edestruct (unauthorized_without_refresh_token env_unset net_refresh_down
               "get" "/users/me" None None access_only
               (outbound env_unset access_only
                  (AxiosInstance.mergeConfig (client (apiClient access_only))
                     "get" "/users/me" None None))
               (resolved env_unset access_only))
    as (w' & Hc & Ht & Ha);
    [reflexivity|reflexivity|reflexivity|].
  eexists _, w'. split; [exact Hc|]. split; [rewrite Ht; reflexivity|exact Ha].
Defined.

Lemma unusable_refresh_answer_is_final_empty_token :
  exists r w' c1,
    client_call env_unset net_refresh_empty "get" "/users/me" None None logged_in
      = Some (r, w') /\
    trace w' = [Sent c1; Refreshed "https://api-dev.example.com/auth/refresh" "R1"] /\
    apiClient w' = apiClient logged_in.
Proof.
  edestruct (unusable_refresh_answer_is_final env_unset net_refresh_empty
               "get" "/users/me" None None logged_in
               (outbound env_unset logged_in
                  (AxiosInstance.mergeConfig (client (apiClient logged_in))
                     "get" "/users/me" None None))
               (resolved env_unset logged_in) "R1"
               "https://api-dev.example.com/auth/refresh")
    as (w' & Hc & Ht & Ha);
    [reflexivity|reflexivity|reflexivity|reflexivity|reflexivity|].
  eexists _, w', _. split; [exact Hc|]. split; [exact Ht|exact Ha].
Defined.

(** The options spell [accept] in lower case; the request is read by
    [Accept]. *)
Lemma caller_headers_over_defaults_accept :
  exists result w' first rest,
    get env_unset net_ok "/export" (Some request_id) started
      = Some (result, w') /\
    trace w' = Sent first :: rest /\
    RequestConfig.headers first !! "Accept" = Some "text/csv".
Proof.
  apply (caller_headers_over_defaults env_unset net_ok None started [] "get" "/export" None
           (Some request_id) "Accept"); [reflexivity|discriminate..].
Defined.

(** After [loadTenant('constructor')] a request answered 401 is not
    refreshed although ["R1"] is held. *)
Lemma inherited_tenant_untagged_no_refresh_constructor :
  exists result w' first,
    get env_unset net_refresh_down "/users/me" None
      (run_ops env_unset net_refresh_down [OpLoadTenant (Some "constructor")] logged_in)
      = Some (result, w') /\
    trace w' = [Sent first] /\
    RequestConfig.headers first !! "X-Tenant-ID" = None /\
    refreshToken (apiClient w') = Some "R1".
Proof.
  destruct (inherited_tenant_untagged_no_refresh env_unset net_refresh_down
              "get" "/users/me" None None
              (run_ops env_unset net_refresh_down [OpLoadTenant (Some "constructor")] logged_in)
              "constructor")
    as (result & w' & first & Hv & Ht & Hx & Ha); [reflexivity|].
  exists result, w', first. split; [exact Hv|]. split; [exact Ht|].
  split; [exact Hx|]. rewrite Ha. reflexivity.
Defined.

(** ** The environment and the logger *)

(** X11.  A non-empty [EXPO_PUBLIC_ENV] decides alone: when it is not
    one of [production], [prod], [staging], [stage] the environment is
    [dev], whatever [NODE_ENV] says. *)
Theorem unrecognised_env_is_dev (vars : BuildVars) (s : string) :
  Js.held (EXPO_PUBLIC_ENV vars) = Some s ->
  ~ In s ["production"; "prod"; "staging"; "stage"] ->
  getEnvironment vars = dev.
Proof.
  intros Hs Hn. unfold getEnvironment, or_undefined, Js.str_or. rewrite Hs.
  rewrite (held_Some _ _ Hs). cbn [default].
  unfold Datatypes.id.
  rewrite !bool_decide_eq_false_2; [reflexivity| |]; simpl in Hn; intuition congruence.
Qed.

Lemma unrecognised_env_is_dev_qa :
  getEnvironment (vars_of (Some "qa") (Some "production") None) = dev.
Proof.
  apply (unrecognised_env_is_dev _ "qa"); [reflexivity|].
  simpl. intros H. repeat (destruct H as [H|H]; [discriminate H|]). exact H.
Defined.

Section LoggerFacts.
Variable stringify : LogContext -> string.
Variable sentryWorks : bool.

(** X12.  With the configuration the application ships, the logger is
    silent in production: a call at any level, [WARN] and [ERROR]
    included, stores nothing, prints nothing and reports nothing. *)
Theorem production_logger_is_silent
    penv vars now level message context error st :
  getEnvironment vars = production ->
  Logger.log (environmentConfig penv vars) stringify sentryWorks
    now level message context error st = st.
Proof.
  intros H. unfold Logger.log, Logger.shouldLog, environmentConfig.
  rewrite H. reflexivity.
Qed.

Lemma production_silent_log penv vars now level message context error st :
  getEnvironment vars = production ->
  Logger.log (environmentConfig penv vars) stringify sentryWorks
    now level message context error st = st.
Proof.
  intros H. unfold Logger.log, Logger.shouldLog, environmentConfig.
  rewrite H. reflexivity.
Qed.

Lemma logs_reportToSentry cfg level message context error st :
  logs (Logger.reportToSentry cfg sentryWorks level message context error st) = logs st.
Proof.
  unfold Logger.reportToSentry. destruct (negb _ || negb _); [reflexivity|].
  destruct sentryWorks; reflexivity.
Qed.

Lemma logs_log cfg now level message context error st :
  logs (Logger.log cfg stringify sentryWorks now level message context error st) =
  if Logger.shouldLog cfg level
  then let pushed :=
         (logs st ++ [ {| LogEntry.level := level; LogEntry.message := message;
                          LogEntry.timestamp := now; LogEntry.context := context;
                          LogEntry.error := error |} ])%list in
       if (maxLogs <? length pushed)%nat then tail pushed else pushed
  else logs st.
Proof.
  unfold Logger.log. destruct (Logger.shouldLog cfg level); [|reflexivity].
  cbn [negb]. destruct error as [e|]; [|reflexivity].
  destruct (EnvironmentConfig.enableSentry cfg); [|reflexivity].
  rewrite logs_reportToSentry. reflexivity.
Qed.

Lemma keep_last_step (acc : list LogEntry.t) (e : LogEntry.t) :
  let pushed := (drop (length acc - maxLogs) acc ++ [e])%list in
  (if (maxLogs <? length pushed)%nat then tail pushed else pushed)
  = drop (length (acc ++ [e]) - maxLogs) (acc ++ [e])%list.
Proof.
  cbv zeta. rewrite !length_app, length_drop. cbn [length]. unfold maxLogs.
  destruct (Nat.ltb_spec 100 (length acc - (length acc - 100) + 1)) as [Hlt|Hge].
  - assert (Hl : (100 <= length acc)%nat) by lia.
    replace (length acc + 1 - 100)%nat with (S (length acc - 100)) by lia.
    rewrite drop_app_le by lia.
    destruct (drop (length acc - 100) acc) as [|x rest] eqn:Hd.
    + apply (f_equal length) in Hd. rewrite length_drop in Hd. simpl in Hd. lia.
    + cbn [app tail]. f_equal.
      replace (S (length acc - 100)) with (length acc - 100 + 1)%nat by lia.
      rewrite <- drop_drop, Hd. reflexivity.
  - assert (Hl : (length acc < 100)%nat) by lia.
    replace (length acc - 100)%nat with 0%nat by lia.
    replace (length acc + 1 - 100)%nat with 0%nat by lia. reflexivity.
Qed.

Lemma logAll_cons cfg c calls st :
  logAll cfg stringify sentryWorks (c :: calls) st =
  logAll cfg stringify sentryWorks calls
    (Logger.log cfg stringify sentryWorks (call_now c) (call_level c)
       (call_message c) (call_context c) (call_error c) st).
Proof. reflexivity. Qed.

Lemma logAll_logs cfg calls st acc :
  logs st = drop (length acc - maxLogs) acc ->
  logs (logAll cfg stringify sentryWorks calls st) =
  let all := (acc ++ map entryOf
                       (List.filter (fun c => Logger.shouldLog cfg (call_level c)) calls))%list in
  drop (length all - maxLogs) all.
Proof.
  revert st acc. induction calls as [|c calls IH]; intros st acc Hst.
  - cbn. rewrite app_nil_r. exact Hst.
  - rewrite logAll_cons. cbn [List.filter].
    destruct (Logger.shouldLog cfg (call_level c)) eqn:Hs.
    + rewrite (IH _ (acc ++ [entryOf c])%list).
      * cbn [map]. cbv zeta. rewrite <- app_assoc. reflexivity.
      * rewrite logs_log, Hs, Hst. apply keep_last_step.
    + rewrite (IH _ acc); [reflexivity|]. rewrite logs_log, Hs. exact Hst.
Qed.

(** X13.  The buffer of the logger holds the entries of the calls that
    passed [shouldLog], in call order, and only the last hundred of
    them: the oldest entry is dropped when the hundred-and-first
    arrives. *)
Theorem log_buffer_keeps_last_hundred cfg (calls : list LogCall) :
  let accepted :=
    map entryOf (List.filter (fun c => Logger.shouldLog cfg (call_level c)) calls) in
  Logger.getLogs (logAll cfg stringify sentryWorks calls freshLogger)
    = drop (length accepted - maxLogs) accepted /\
  (length (Logger.getLogs (logAll cfg stringify sentryWorks calls freshLogger))
     <= maxLogs)%nat.
Proof.
  cbv zeta. unfold Logger.getLogs.
  rewrite (logAll_logs cfg calls freshLogger []) by reflexivity.
  cbn [app]. split; [reflexivity|]. rewrite length_drop. unfold maxLogs. lia.
Qed.
End LoggerFacts.

Lemma production_logger_is_silent_error :
  Logger.error (environmentConfig env_unset vars_production) no_json true
    "2024-01-01T00:00:00.000Z" "Payment failed" None (Some boom) freshLogger
  = freshLogger.
Proof.
  apply (production_logger_is_silent no_json true env_unset vars_production).
  reflexivity.
Defined.

Section SentryFacts.
Variable stringify : LogContext -> string.

(** X14.  With the configuration the application ships, a call of the
    logger reaches Sentry only in staging, only when it is given an
    error object, only when a DSN is configured and only when the Sentry
    module works. *)
Theorem logger_reaches_sentry_only_in_staging
    penv vars sentryWorks now level message context error st :
  sentry (Logger.log (environmentConfig penv vars) stringify sentryWorks
            now level message context error st) <> sentry st ->
  getEnvironment vars = staging /\
  is_Some error /\
  is_Some (Js.held (EXPO_PUBLIC_SENTRY_DSN vars)) /\
  sentryWorks = true.
Proof.
  unfold Logger.log, Logger.shouldLog, Logger.reportToSentry, environmentConfig.
  destruct (getEnvironment vars); cbn; intros H.
  - destruct error; contradiction.
  - destruct error as [e|]; [|contradiction].
    destruct (bool_decide (is_Some (Js.held (EXPO_PUBLIC_SENTRY_DSN vars)))) eqn:Hd;
      cbn in H; [|contradiction].
    destruct sentryWorks; cbn in H; [|contradiction].
    apply bool_decide_eq_true_1 in Hd. repeat split; eauto.
  - contradiction.
Qed.

(** X15.  In staging with a DSN and a working Sentry module, [error]
    given an error object sends that object with [captureException];
    [warn] given an error object sends only its message, with
    [captureMessage] at level ["warn"]; [debug], [info] and an [error]
    without error object send nothing. *)
Theorem staging_sentry_routing penv vars dsn now message context e st :
  getEnvironment vars = staging ->
  Js.held (EXPO_PUBLIC_SENTRY_DSN vars) = Some dsn ->
  let cfg := environmentConfig penv vars in
  sentry (Logger.error cfg stringify true now message context (Some e) st)
    = (sentry st ++ [captureException e context [("logLevel", CString "ERROR")]])%list /\
  sentry (Logger.warn cfg stringify true now message context (Some e) st)
    = (sentry st ++ [captureMessage message "warn" context []])%list /\
  sentry (Logger.error cfg stringify true now message context None st) = sentry st /\
  sentry (Logger.debug cfg stringify true now message context st) = sentry st /\
  sentry (Logger.info cfg stringify true now message context st) = sentry st.
Proof.
  intros He Hd cfg. unfold cfg, Logger.error, Logger.warn, Logger.debug, Logger.info,
    Logger.log, Logger.shouldLog, Logger.reportToSentry, environmentConfig.
  rewrite He. cbn. rewrite Hd. cbn.
  rewrite ?bool_decide_eq_true_2 by eauto. repeat split.
Qed.
End SentryFacts.

Lemma logger_reaches_sentry_only_in_staging_error :
  getEnvironment vars_staging = staging /\
  is_Some (Some boom) /\
  is_Some (Js.held (EXPO_PUBLIC_SENTRY_DSN vars_staging)) /\
  true = true.
Proof.
  apply (logger_reaches_sentry_only_in_staging no_json env_unset vars_staging true
           "2024-01-01T00:00:00.000Z" ERROR "Payment failed" None (Some boom) freshLogger).
  vm_compute. discriminate.
Defined.

Lemma staging_sentry_routing_boom :
  sentry (Logger.warn (environmentConfig env_unset vars_staging) no_json true
            "2024-01-01T00:00:00.000Z" "Slow response" None (Some boom) freshLogger)
  = [captureMessage "Slow response" "warn" None []].
Proof.
  apply (staging_sentry_routing no_json env_unset vars_staging
           "https://key@sentry.example/1" "2024-01-01T00:00:00.000Z"
           "Slow response" None boom freshLogger); reflexivity.
Defined.

(** ** The error handler *)

Lemma prefix_append (needle rest : string) : String.prefix needle (needle ++ rest) = true.
Proof.
  induction needle as [|c needle IH]; [destruct rest; reflexivity|].
  simpl. destruct (Ascii.ascii_dec c c) as [_|Hc]; [exact IH|contradiction].
Qed.

Lemma includes_prefix (needle s : string) :
  String.prefix needle s = true -> includes needle s = true.
Proof. intros H. destruct s; cbn [includes]; rewrite H; reflexivity. Qed.

Lemma includes_append (needle before after : string) :
  includes needle (before ++ needle ++ after) = true.
Proof.
  induction before as [|c before IH].
  - change ("" ++ needle ++ after) with (needle ++ after).
    apply includes_prefix, prefix_append.
  - change (String c before ++ needle ++ after)
      with (String c (before ++ needle ++ after)).
    cbn [includes]. rewrite IH. apply orb_true_r.
Qed.

Lemma toLowerCase_append (a b : string) :
  toLowerCase (a ++ b) = toLowerCase a ++ toLowerCase b.
Proof. induction a as [|c a IH]; [reflexivity|]. simpl. rewrite IH. reflexivity. Qed.

(** X16.  An error whose message contains the word "network" or "fetch",
    in any mix of upper and lower case and wherever it stands, gets the
    network message, even when the message also names a timeout or a
    status code. *)
Theorem network_wording_wins (before word after : string) (stack : option string) :
  toLowerCase word = "network" \/ toLowerCase word = "fetch" ->
  ErrorHandler.getUserFriendlyMessage
    {| JsError.message := before ++ word ++ after; JsError.stack := stack |}
  = "Network error. Please check your connection and try again.".
Proof.
  intros H. unfold ErrorHandler.getUserFriendlyMessage. cbn [JsError.message].
  rewrite !toLowerCase_append.
  destruct H as [-> | ->]; rewrite includes_append; rewrite ?orb_true_r; reflexivity.
Qed.

Lemma network_wording_wins_timeout :
  ErrorHandler.getUserFriendlyMessage
    {| JsError.message := "timeout: NETWORK unreachable (500)"; JsError.stack := None |}
  = "Network error. Please check your connection and try again.".
Proof.
  apply (network_wording_wins "timeout: " "NETWORK" " unreachable (500)" None).
  left. reflexivity.
Defined.

Section ErrorHandlerFacts.
Variable stringify : LogContext -> string.
Variable sentryError : JsError.t.

(** X18.  In production the error handler still reports to Sentry while
    the logger stays silent: with a DSN and a working Sentry module,
    [handleError] adds exactly one Sentry call (the exception itself for
    every [Error] instance, also one that has the properties of an
    [AppError]; a message at level ["error"] otherwise) and neither a
    buffer entry nor console output. *)
Theorem production_handler_reports_without_logging
    penv vars dsn now error context st :
  getEnvironment vars = production ->
  Js.held (EXPO_PUBLIC_SENTRY_DSN vars) = Some dsn ->
  let cfg := environmentConfig penv vars in
  let appError := ErrorHandler.normalizeError error context in
  ErrorHandler.handleError cfg stringify true sentryError now error context st =
  (appError,
   {| logs := logs st;
      console := console st;
      sentry :=
        sentry st ++
        [ match ErrorHandler.asError error with
          | Some e =>
              captureException e (AppError.context appError)
                (ErrorHandler.errorTags appError)
          | None =>
              captureMessage (AppError.message appError) "error"
                (AppError.context appError) (ErrorHandler.errorTags appError)
          end ] |}).
Proof.
  intros He Hd cfg appError.
  unfold ErrorHandler.handleError, ErrorHandler.reportToSentry, Logger.error.
  subst cfg. rewrite (production_silent_log stringify true) by exact He.
  unfold environmentConfig. rewrite He. cbn. rewrite Hd. cbn.
  rewrite ?bool_decide_eq_true_2 by eauto. reflexivity.
Qed.

(** X19.  In development the error handler never reports to Sentry; it
    logs one [ERROR] entry "Error handled" and returns the normalised
    error. *)
Theorem development_handler_logs_only
    penv vars sentryWorks now error context st :
  getEnvironment vars = dev ->
  let cfg := environmentConfig penv vars in
  let result := ErrorHandler.handleError cfg stringify sentryWorks sentryError
                  now error context st in
  fst result = ErrorHandler.normalizeError error context /\
  sentry (snd result) = sentry st /\
  exists entry,
    last (logs (snd result)) = Some entry /\
    LogEntry.level entry = ERROR /\
    LogEntry.message entry = "Error handled" /\
    LogEntry.timestamp entry = now.
Proof.
  intros He cfg result. unfold result, cfg, ErrorHandler.handleError, Logger.error,
    Logger.log, Logger.shouldLog, environmentConfig.
  rewrite He. cbn [createEnvironmentConfig EnvironmentConfig.enableLogging
    EnvironmentConfig.enableSentry EnvironmentConfig.environment negb fst snd
    logs sentry].
  split; [reflexivity|]. split; [reflexivity|].
  eexists. split.
  { destruct (maxLogs <? _)%nat eqn:Hm.
    - destruct (logs st) as [|x rest]; [discriminate Hm|].
      cbn [app tail]. apply last_snoc.
    - apply last_snoc. }
  repeat split.
Qed.
End ErrorHandlerFacts.

(** An [Error] that carries the properties of an [AppError] is
    returned as it is and sent to Sentry as an exception. *)
Lemma production_handler_reports_without_logging_quota :
  ErrorHandler.handleError (environmentConfig env_unset vars_production)
    no_json true boom "2024-01-01T00:00:00.000Z"
    (UAppErrorInstance quota_exceeded None) None freshLogger
  = (quota_exceeded,
     {| logs := []; console := [];
        sentry :=
          [captureException
             {| JsError.message := "Quota exceeded"; JsError.stack := None |} None
             [("errorCode", CString "QUOTA"); ("recoverable", CString "false")]] |}).
Proof.
  rewrite (production_handler_reports_without_logging no_json boom env_unset
             vars_production "https://key@sentry.example/1"
             "2024-01-01T00:00:00.000Z" (UAppErrorInstance quota_exceeded None)
             None freshLogger);
    reflexivity.
Defined.

Lemma development_handler_logs_only_string :
  fst (ErrorHandler.handleError (environmentConfig env_unset vars_dev)
         no_json true boom "2024-01-01T00:00:00.000Z" (UString "disk full") None
         freshLogger)
  = {| AppError.code := "STRING_ERROR"; AppError.message := "disk full";
       AppError.userMessage := "An unexpected error occurred. Please try again.";
       AppError.recoverable := true; AppError.context := None |}.
Proof.
  apply (development_handler_logs_only no_json boom env_unset vars_dev true
           "2024-01-01T00:00:00.000Z" (UString "disk full") None freshLogger).
  reflexivity.
Defined.

(** ** The auth slice and its thunks *)


Section AuthFacts.
Variable env : ProcessEnv.
Variable net : Network.
Variable readTokens : Body.t -> option TokenPair.t.
Variable tokensTypeError : string.
Variable asUser : Body.t -> User.t.

Lemma verb_shape_outcome method url data config w :
  exists result w',
    verb env net method url data config w = Some (result, w') /\
    ((exists body,
        result = Ok {| ApiResponse.data := body; ApiResponse.message := None;
                       ApiResponse.success := true; ApiResponse.errors := None |}) \/
     result = Throw (ThrownApi unknownError)) /\
    refreshToken (apiClient w') = refreshToken (apiClient w) /\
    (accessToken (apiClient w') = accessToken (apiClient w) \/
     exists tok, accessToken (apiClient w') = Some tok /\ tok <> "").
Proof.
  destruct (verb_summary env net method url data config w)
    as (result & w' & rest & Hv & _ & _ & _ & Hr).
  destruct (verb_shape env net method url data config w) as (result' & w'' & Hv' & _ & Hs).
  rewrite Hv in Hv'. injection Hv' as <- <-.
  exists result, w'. split; [exact Hv|]. split.
  { destruct Hr as [[response ->]| ->]; [left|right; reflexivity].
    exists (AxiosResponse.data response). reflexivity. }
  destruct Hs as [[_ Ha]|[(rt & refresh & _ & _ & _ & Ha)
                          |(rt & refresh & tok & c2 & _ & _ & Hh & _ & _ & Ha)]];
    rewrite Ha; (split; [reflexivity|]); [left; reflexivity|left; reflexivity|].
  right. exists tok. split; [reflexivity|]. intros ->. discriminate Hh.
Qed.

(** The first attempt of a verb call is a request of that method to
    that url with that body. *)
Lemma verb_first_attempt method url data config w :
  exists result w' first rest,
    verb env net method url data config w = Some (result, w') /\
    trace w' = (trace w ++ Sent first :: rest)%list /\
    RequestConfig.method first = method /\
    RequestConfig.url first = url /\
    RequestConfig.data first = data.
Proof.
  destruct (verb_summary env net method url data config w)
    as (result & w' & rest & Hv & Ht & _).
  eexists result, w', _, rest. split; [exact Hv|]. split; [exact Ht|].
  destruct (outbound_target env w
              (AxiosInstance.mergeConfig (client (apiClient w)) method url data config))
    as (_ & _ & -> & -> & ->).
  repeat split.
Qed.

(** X21.  The logout thunk is [post('/auth/logout')] followed, only when
    that call returned, by [clearTokens]: it always settles, it sends
    the request first, it is fulfilled with both tokens of the client
    cleared exactly when the call returned, and when the call threw it
    is rejected with "Logout failed" in the state the call left, where
    the refresh token is still stored. *)
Theorem logout_clears_tokens_only_on_success w :
  exists settled w' result called first rest,
    AuthThunks.logout env net w = Some (Ok settled, w') /\
    post env net "/auth/logout" None None w = Some (result, called) /\
    trace w' = (trace w ++ Sent first :: rest)%list /\
    RequestConfig.method first = "post" /\
    RequestConfig.url first = "/auth/logout" /\
    match result with
    | Ok _ =>
        settled = fulfilled tt /\
        w' = set_tokens None None called
    | Throw _ =>
        settled = rejected "Logout failed" /\
        w' = called /\
        refreshToken (apiClient w') = refreshToken (apiClient w)
    end.
Proof.
  destruct (verb_first_attempt "post" "/auth/logout" None None w)
    as (result & called & first & rest & Hv & Ht & Hm & Hu & _).
  destruct (verb_shape_outcome "post" "/auth/logout" None None w)
    as (result' & called' & Hv' & Hr & Hrt & _).
  rewrite Hv in Hv'. injection Hv' as <- <-.
  unfold AuthThunks.logout, AuthRepository.logout, post, try_catch, bind.
  rewrite Hv. destruct Hr as [[body ->]| ->].
  - eexists (fulfilled tt), (set_tokens None None called), _, called, first, rest.
    split; [reflexivity|]. split; [reflexivity|]. split; [exact Ht|].
    split; [exact Hm|]. split; [exact Hu|]. split; reflexivity.
  - eexists (rejected "Logout failed"), called, _, called, first, rest.
    split; [reflexivity|]. split; [reflexivity|]. split; [exact Ht|].
    split; [exact Hm|]. split; [exact Hu|]. repeat split. exact Hrt.
Qed.

(** X22.  The login thunk is [post('/auth/login', credentials)] followed
    by the reading of the body: it always settles and changes the state
    that the call left only by storing tokens.  When the call threw or
    answered without a body the thunk is rejected with "Login failed";
    when the body has no [tokens] object it is rejected with the message
    of the [TypeError] that reading [tokens.accessToken] throws; else it
    is fulfilled with the body and the client holds the two tokens of
    the body, each as it is there. *)
Theorem login_outcomes credentials w :
  exists settled w' result called,
    AuthThunks.login env net readTokens tokensTypeError credentials w
      = Some (Ok settled, w') /\
    post env net "/auth/login" (Some credentials) None w = Some (result, called) /\
    match result with
    | Ok response =>
        match ApiResponse.data response with
        | Some body =>
            match readTokens body with
            | Some tokens =>
                settled = fulfilled body /\
                w' = set_tokens (TokenPair.accessToken tokens)
                       (TokenPair.refreshToken tokens) called
            | None => settled = rejected tokensTypeError /\ w' = called
            end
        | None => settled = rejected "Login failed" /\ w' = called
        end
    | Throw _ => settled = rejected "Login failed" /\ w' = called
    end.
Proof.
  destruct (verb_shape_outcome "post" "/auth/login" (Some credentials) None w)
    as (result & called & Hv & Hr & _).
  unfold AuthThunks.login, AuthRepository.login, AuthRepository.unwrap,
    AuthThunks.storeTokens, try_catch, bind.
  unfold post at 1. rewrite Hv. unfold post. rewrite Hv.
  destruct Hr as [[[body|] ->]| ->];
    cbn [ApiResponse.data ApiResponse.success negb ret throw].
  - destruct (readTokens body) as [[[access|] [refresh|]]|] eqn:E;
      eexists _, _, _, _; (split; [reflexivity|]); (split; [reflexivity|]);
      cbn [ApiResponse.data]; rewrite E; split; reflexivity.
  - eexists _, _, _, _. split; [reflexivity|]. split; [reflexivity|].
    split; reflexivity.
  - eexists _, _, _, _. split; [reflexivity|]. split; [reflexivity|].
    split; reflexivity.
Qed.

(** X23.  The thunk that fetches the current user is fulfilled with the
    body of a successful answer; a failed request is rejected with
    "Failed to get user" and an answer without body with "Failed to get
    current user"; the tokens of the client are not set by it. *)
Theorem getCurrentUser_outcomes w :
  exists settled w' result,
    AuthThunks.getCurrentUser env net asUser w = Some (Ok settled, w') /\
    get env net "/auth/me" None w = Some (result, w') /\
    match result with
    | Ok response =>
        match ApiResponse.data response with
        | Some body => settled = fulfilled (asUser body)
        | None => settled = rejected "Failed to get current user"
        end
    | Throw _ => settled = rejected "Failed to get user"
    end.
Proof.
  destruct (verb_shape_outcome "get" "/auth/me" None None w)
    as (result & w' & Hv & Hr & _).
  unfold AuthThunks.getCurrentUser, AuthRepository.getCurrentUser,
    AuthRepository.unwrap, try_catch, bind.
  unfold get at 1. rewrite Hv. unfold get. rewrite Hv.
  destruct Hr as [[[body|] ->]| ->]; eexists _, _, _;
    (split; [reflexivity|]); (split; [reflexivity|]); reflexivity.
Qed.
End AuthFacts.
